(** * MBK backend: table extraction and section matching

    A shallow embedding of [src/backend/main.py]: the layout-based table
    extractor [process_pdf] and the section matcher of [process_pdfs],
    together with the properties stated about them.

    Conventions of the embedding.
    - A Python [str] is a [string]; a character is a code point below 256.
    - Layout coordinates ([x0], [x1], [top]) are integers, in layout units.
    - A parsed PDF is the list of its pages, a page the list of words that
      [page.extract_words()] returns, in that order.
    - A pandas [DataFrame] is its list of column labels and its list of rows;
      a cell is [Some s] for a string and [None] for a missing value (NaN).
    - A Python exception is a value of [exn], threaded by the [outcome]
      monad. *)

From Stdlib Require Import List String Ascii ZArith Bool Arith Lia.
From Stdlib Require Import DecimalString Sorted Permutation.
Import ListNotations.

Open Scope string_scope.
Open Scope Z_scope.

(** ** Strings *)

Module Str.

(** [str.isspace] on one character of the Latin-1 range: TAB..CR, FS..US,
    space, NEL and NBSP. *)
Definition is_space (c : ascii) : bool :=
  let n := nat_of_ascii c in
  ((9 <=? n) && (n <=? 13) || (28 <=? n) && (n <=? 32)
   || (n =? 133) || (n =? 160))%nat.

Definition is_empty (s : string) : bool :=
  match s with EmptyString => true | String _ _ => false end.

Fixpoint lstrip (s : string) : string :=
  match s with
  | EmptyString => EmptyString
  | String c r => if is_space c then lstrip r else s
  end.

Fixpoint rstrip (s : string) : string :=
  match s with
  | EmptyString => EmptyString
  | String c r =>
      let r' := rstrip r in
      if is_space c && is_empty r' then EmptyString else String c r'
  end.

(** [s.strip()] *)
Definition strip (s : string) : string := rstrip (lstrip s).

(** [p in s] *)
Fixpoint contains (p s : string) : bool :=
  String.prefix p s ||
  match s with
  | EmptyString => false
  | String _ r => contains p r
  end.

(** Lower-casing of the ASCII letters, the only ones that can fold onto the
    letters of an ASCII pattern in this range. *)
Definition lower_char (c : ascii) : ascii :=
  let n := nat_of_ascii c in
  if ((65 <=? n) && (n <=? 90))%nat then ascii_of_nat (n + 32) else c.

Fixpoint lower (s : string) : string :=
  match s with
  | EmptyString => EmptyString
  | String c r => String (lower_char c) (lower r)
  end.

(** [str(n)] for a length. *)
Definition of_nat (n : nat) : string :=
  NilEmpty.string_of_uint (Nat.to_uint n).

(** Every character is white space (so also for the empty string). *)
Fixpoint all_space (s : string) : bool :=
  match s with
  | EmptyString => true
  | String c r => is_space c && all_space r
  end.

End Str.

(** ** Exceptions *)

Inductive exn : Type :=
| KeyError (key : string)
| TypeError
| AttributeError
| InvalidIndexError
| ReError
| HTTPException (status : nat) (cause : exn).

(** The result of running a piece of the program: a value or an exception. *)
Inductive outcome (A : Type) : Type :=
| Returns (a : A)
| Raises (e : exn).
Arguments Returns {A} a.
Arguments Raises {A} e.

Definition bind {A B} (m : outcome A) (k : A -> outcome B) : outcome B :=
  match m with
  | Returns a => k a
  | Raises e => Raises e
  end.

Notation "x <- m ;; k" := (bind m (fun x => k))
  (at level 61, m at next level, right associativity).

Fixpoint mapM {A B} (f : A -> outcome B) (l : list A) : outcome (list B) :=
  match l with
  | [] => Returns []
  | a :: r => b <- f a ;; bs <- mapM f r ;; Returns (b :: bs)
  end.

(** ** Words and pages *)

Record Word : Type := mkWord
  { text : string; x0 : Z; x1 : Z; top : Z }.

Definition Page : Type := list Word.

Definition TARGET_HEADERS : list string :=
  ["S.S"; "POL"; "POD"; "OPR"; "2210"; "4510"; "45G0"; "45G1"; "4310";
   "4363"; "4532"; "E"; "F"].

Definition in_list (s : string) (l : list string) : bool :=
  existsb (String.eqb s) l.

(** A header position: label, left edge minus 5, right edge plus 5. *)
Definition HeaderPos : Type := (string * Z * Z)%type.

Definition hp_label (h : HeaderPos) : string := fst (fst h).
Definition hp_x0 (h : HeaderPos) : Z := snd (fst h).
Definition hp_x1 (h : HeaderPos) : Z := snd h.

(** Line 38: [word['text'] in TARGET_HEADERS] *)
Definition is_header_word (w : Word) : bool :=
  in_list (text w) TARGET_HEADERS.

(** Lines 36-39: one header position per word whose text is a target. *)
Fixpoint detect_headers (words : list Word) : list HeaderPos :=
  match words with
  | [] => []
  | w :: r =>
      if is_header_word w
      then (text w, x0 w - 5, x1 w + 5) :: detect_headers r
      else detect_headers r
  end.

(** [list.sort(key=...)] is stable: an element goes before the first one
    with a key that is not smaller. *)
Fixpoint insert_by {A} (key : A -> Z) (a : A) (l : list A) : list A :=
  match l with
  | [] => [a]
  | b :: r => if key a <=? key b then a :: l else b :: insert_by key a r
  end.

Definition sort_by {A} (key : A -> Z) (l : list A) : list A :=
  fold_right (insert_by key) [] l.

(** Line 41 *)
Definition header_positions (words : list Word) : list HeaderPos :=
  sort_by hp_x0 (detect_headers words).

(** Lines 47-48 *)
Definition column_positions (hs : list HeaderPos) : list (Z * Z) :=
  map (fun h => (hp_x0 h, hp_x1 h)) hs.
Definition column_names (hs : list HeaderPos) : list string :=
  map hp_label hs.

(** [sorted(set(...))]: ascending, each value once. *)
Fixpoint insert_uniq (z : Z) (l : list Z) : list Z :=
  match l with
  | [] => [z]
  | y :: r =>
      if z <? y then z :: l
      else if z =? y then l
      else y :: insert_uniq z r
  end.

(** Line 51 *)
Definition row_positions (words : list Word) : list Z :=
  fold_right insert_uniq [] (map top words).

(** Lines 59-63: index of the first band that contains the word's [x0]. *)
Fixpoint match_column (cols : list (Z * Z)) (x : Z) (col_idx : nat)
  : option nat :=
  match cols with
  | [] => None
  | (col_x0, col_x1) :: r =>
      if (col_x0 <=? x) && (x <=? col_x1) then Some col_idx
      else match_column r x (S col_idx)
  end.

(** [row_data[i] += t] for [i] in range. *)
Fixpoint add_at (i : nat) (t : string) (row : list string) : list string :=
  match row, i with
  | [], _ => []
  | c :: r, O => (c ++ t)%string :: r
  | c :: r, S j => c :: add_at j t r
  end.

(** Line 66: the piece that a word adds to its cell. The method call binds
    tighter than [+=]: the blank-prefixed text is stripped first, and the
    result is appended to the cell. *)
Definition piece (w : Word) : string := Str.strip (" " ++ text w).

(** Lines 57-66, the body of the loop over the words for the anchor [y]. *)
Definition add_word (cols : list (Z * Z)) (y : Z)
  (row_data : list string) (w : Word) : list string :=
  if Z.abs (top w - y) <? 5 then
    match match_column cols (x0 w) 0 with
    | Some matched_column =>
        if (matched_column <? List.length row_data)%nat
        then add_at matched_column (piece w) row_data
        else row_data
    | None => row_data
    end
  else row_data.

(** Lines 55-66: the candidate row of the anchor [y]. *)
Definition build_row (hs : list HeaderPos) (words : list Word) (y : Z)
  : list string :=
  fold_left (add_word (column_positions hs) y) words
    (repeat "" (List.length (column_names hs))).

(** [any(row_data)]: some cell is a non-empty string. *)
Definition any_cell (row : list string) : bool :=
  existsb (fun c => negb (Str.is_empty c)) row.

(** Line 68 *)
Definition keep_row (hs : list HeaderPos) (row_data : list string) : bool :=
  (List.length row_data =? List.length (column_names hs))%nat && any_cell row_data.

(** Lines 52-69: the candidate rows of a page, one anchor after the other. *)
Definition table_data (hs : list HeaderPos) (words : list Word)
  : list (list string) :=
  filter (keep_row hs) (map (build_row hs words) (row_positions words)).

(** The words that the loop of lines 57-66 adds to cell [i] of the row of
    the anchor [y]. *)
Definition lands_in (cols : list (Z * Z)) (y : Z) (i : nat) (w : Word)
  : bool :=
  (Z.abs (top w - y) <? 5) &&
  match match_column cols (x0 w) 0 with
  | Some j => (j =? i)%nat
  | None => false
  end.

Fixpoint join_pieces (ws : list Word) : string :=
  match ws with
  | [] => ""
  | w :: r => piece w ++ join_pieces r
  end.

(** ** Data frames *)

Definition Cell : Type := option string.

Record DataFrame : Type := mkFrame
  { columns : list string; rows : list (list Cell) }.

(** [pd.DataFrame(table_data, columns=column_names)] *)
Definition new_frame (data : list (list string)) (names : list string)
  : DataFrame :=
  {| columns := names; rows := map (map Some) data |}.

(** [pd.DataFrame()] *)
Definition empty_frame : DataFrame := {| columns := []; rows := [] |}.

(** [df.empty]: some axis has length 0. *)
Definition frame_empty (df : DataFrame) : bool :=
  match columns df, rows df with
  | [], _ => true
  | _, [] => true
  | _, _ => false
  end.

Definition is_na (c : Cell) : bool :=
  match c with None => true | Some _ => false end.

(** [astype(str)] on one cell: a missing value becomes the text "nan". *)
Definition astype_str (c : Cell) : string :=
  match c with Some s => s | None => "nan" end.

Definition filter_rows (f : list Cell -> bool) (df : DataFrame) : DataFrame :=
  {| columns := columns df; rows := filter f (rows df) |}.

(** Line 74: [df.dropna(how='all')] drops the rows with only missing cells. *)
Definition dropna_all (df : DataFrame) : DataFrame :=
  filter_rows (fun r => negb (forallb is_na r)) df.

(** [.str.contains("total", case=False, na=False)] on a cell made a string. *)
Definition contains_total (c : Cell) : bool :=
  Str.contains "total" (Str.lower (astype_str c)).

(** Line 75: keep the rows in which no cell contains "total". *)
Definition drop_total (df : DataFrame) : DataFrame :=
  filter_rows (fun r => negb (existsb contains_total r)) df.

(** [df.astype(str).ne(column_names).any(axis=1)] on one row: some cell
    differs from the label of its column. A row of the frame has one cell
    per label. *)
Definition differs_from_header (names : list string) (r : list Cell) : bool :=
  existsb (fun ch => negb (String.eqb (astype_str (fst ch)) (snd ch)))
    (combine r names).

(** Line 76 *)
Definition drop_header_rows (names : list string) (df : DataFrame)
  : DataFrame :=
  filter_rows (differs_from_header names) df.

(** Positions of a label among the column labels. *)
Fixpoint positions (label : string) (names : list string) (i : nat)
  : list nat :=
  match names with
  | [] => []
  | n :: r =>
      if String.eqb n label then i :: positions label r (S i)
      else positions label r (S i)
  end.

Definition cell_at (i : nat) (r : list Cell) : Cell :=
  match nth_error r i with Some c => c | None => None end.

(** [df[label].str]: the column when the label occurs once. A missing label
    is a [KeyError]; with a repeated label [df[label]] is a frame, which has
    no [str] accessor. *)
Definition str_column (df : DataFrame) (label : string)
  : outcome (list Cell) :=
  match positions label (columns df) 0 with
  | [] => Raises (KeyError label)
  | [i] => Returns (map (cell_at i) (rows df))
  | _ :: _ :: _ => Raises AttributeError
  end.

(** [df[mask]] for a mask computed from the frame's own rows. *)
Fixpoint select {A} (mask : list bool) (l : list A) : list A :=
  match mask, l with
  | b :: m, a :: r => if b then a :: select m r else select m r
  | _, _ => []
  end.

(** [s.str.strip() != ""] on one cell; a missing value stays missing and
    differs from the empty string. *)
Definition opr_populated (c : Cell) : bool :=
  match c with
  | Some s => negb (Str.is_empty (Str.strip s))
  | None => true
  end.

(** Lines 78-79 *)
Definition drop_blank_opr (df : DataFrame) : outcome DataFrame :=
  if in_list "OPR" (columns df) then
    col <- str_column df "OPR" ;;
    Returns {| columns := columns df;
               rows := select (map opr_populated col) (rows df) |}
  else Returns df.

(** ** The table extractor *)

(** Lines 73-79: the frame of the candidate rows, cleaned. *)
Definition clean_table (data : list (list string)) (names : list string)
  : outcome DataFrame :=
  let df := new_frame data names in
  let df := dropna_all df in
  let df := drop_total df in
  let df := drop_header_rows names df in
  drop_blank_opr df.

(** Lines 30-82, the body of the loop over the pages: the table that the page
    adds to [extracted_tables], if any. *)
Definition process_page (words : Page) : outcome (option DataFrame) :=
  match words with
  | [] => Returns None
  | _ =>
      let hs := header_positions words in
      match hs with
      | [] => Returns None
      | _ =>
          match table_data hs words with
          | [] => Returns None
          | data =>
              df <- clean_table data (column_names hs) ;;
              Returns (if frame_empty df then None else Some df)
          end
      end
  end.

Fixpoint extract_tables (pages : list Page) : outcome (list DataFrame) :=
  match pages with
  | [] => Returns []
  | p :: r =>
      t <- process_page p ;;
      ts <- extract_tables r ;;
      Returns (match t with Some df => df :: ts | None => ts end)
  end.

(** [except Exception as e: raise HTTPException(status_code=500, ...)] *)
Definition guard500 {A} (m : outcome A) : outcome A :=
  match m with
  | Raises e => Raises (HTTPException 500 e)
  | _ => m
  end.

(** Lines 24-88 *)
Definition process_pdf (pdf : list Page) : outcome (list DataFrame) :=
  guard500 (extract_tables pdf).

(** ** Regular expressions

    [Series.str.contains(pat, na=False)] compiles [pat] with [re.compile]
    and keeps the cells in which [search] finds a match. The syntax spelled
    out here: ordinary characters, the dot, and a backslash before a special
    character. A pattern with any other use of a special character is
    [Beyond]; what the library does with it is a parameter of the section
    matcher. *)

Module Re.

Inductive atom : Type :=
| Lit (c : ascii)
| AnyChar.

(** The special characters of the pattern language. *)
Definition specials : string := ".^$*+?{}[]\|()".

Fixpoint mem_char (c : ascii) (s : string) : bool :=
  match s with
  | EmptyString => false
  | String d r => Ascii.eqb c d || mem_char c r
  end.

Definition is_special (c : ascii) : bool := mem_char c specials.

Fixpoint no_special (s : string) : bool :=
  match s with
  | EmptyString => true
  | String c r => negb (is_special c) && no_special r
  end.

Inductive parsed : Type :=
| Atoms (r : list atom)
| BadEscape
| Beyond.

Definition cons_atom (a : atom) (p : parsed) : parsed :=
  match p with
  | Atoms r => Atoms (a :: r)
  | _ => p
  end.

Fixpoint parse (pat : string) : parsed :=
  match pat with
  | EmptyString => Atoms []
  | String "." r => cons_atom AnyChar (parse r)
  | String "\" EmptyString => BadEscape
  | String "\" (String c r) =>
      if is_special c then cons_atom (Lit c) (parse r) else Beyond
  | String c r =>
      if is_special c then Beyond else cons_atom (Lit c) (parse r)
  end.

(** The dot matches every character but the newline. *)
Definition atom_matches (a : atom) (c : ascii) : bool :=
  match a with
  | Lit d => Ascii.eqb d c
  | AnyChar => negb (Ascii.eqb c "010")
  end.

Fixpoint match_here (r : list atom) (s : string) : bool :=
  match r, s with
  | [], _ => true
  | _ :: _, EmptyString => false
  | a :: r', String c s' => atom_matches a c && match_here r' s'
  end.

(** [regex.search(s) is not None] *)
Fixpoint search (r : list atom) (s : string) : bool :=
  match_here r s ||
  match s with
  | EmptyString => false
  | String _ s' => search r s'
  end.

(** The pattern that matches the characters of [s] as they are. *)
Fixpoint literals (s : string) : list atom :=
  match s with
  | EmptyString => []
  | String c r => Lit c :: literals r
  end.

End Re.

(** ** The request payload *)

#[local] Set Warnings "-register-all".

(** What [json.loads] returns. An object keeps its entries in order. *)
Inductive json : Type :=
| JNull
| JBool (b : bool)
| JNumber (lexeme : string)
| JString (s : string)
| JArray (elements : list json)
| JObject (entries : list (string * json)).

Fixpoint assoc (key : string) (entries : list (string * json))
  : option json :=
  match entries with
  | [] => None
  | (k, v) :: r => if String.eqb k key then Some v else assoc key r
  end.

(** [data[key]] for a string key. *)
Definition getitem (data : json) (key : string) : outcome json :=
  match data with
  | JObject entries =>
      match assoc key entries with
      | Some v => Returns v
      | None => Raises (KeyError key)
      end
  | _ => Raises TypeError
  end.

(** [sections_data.items()] *)
Definition items (sections_data : json) : outcome (list (string * json)) :=
  match sections_data with
  | JObject entries => Returns entries
  | _ => Raises AttributeError
  end.

(** ** The section matcher *)

Fixpoint has_dup (l : list string) : bool :=
  match l with
  | [] => false
  | a :: r => in_list a r || has_dup r
  end.

Definition same_labels (a b : list string) : bool :=
  if list_eq_dec string_dec a b then true else false.

(** Union of the column labels, in order of first appearance. *)
Fixpoint union_labels (acc : list string) (l : list string) : list string :=
  match l with
  | [] => acc
  | a :: r =>
      if in_list a acc then union_labels acc r
      else union_labels (acc ++ [a]) r
  end.

(** A row of a frame with columns [from], laid out on the columns [to]; a
    column that the frame lacks is filled with missing values. *)
Definition reindex_row (from to : list string) (r : list Cell) : list Cell :=
  map (fun label =>
         match positions label from 0 with
         | i :: _ => cell_at i r
         | [] => None
         end) to.

(** [pd.concat(tables)] for a non-empty list of frames: the rows one after
    the other. Frames with the same labels are stacked as they are; otherwise
    every frame is laid out on the union of the labels, which needs the
    labels of each frame to be distinct. *)
Definition concat (tables : list DataFrame) : outcome DataFrame :=
  match tables with
  | [] => Raises TypeError
  | t :: ts =>
      if forallb (fun u => same_labels (columns t) (columns u)) ts then
        Returns {| columns := columns t; rows := flat_map rows tables |}
      else if existsb (fun u => has_dup (columns u)) tables then
        Raises InvalidIndexError
      else
        let cols := fold_left union_labels (map columns tables) [] in
        Returns {| columns := cols;
                   rows := flat_map (fun u =>
                     map (reindex_row (columns u) cols) (rows u)) tables |}
  end.

(** Lines 114-115 *)
Definition combined (tables : list DataFrame) : outcome DataFrame :=
  match tables with
  | [] => Returns empty_frame
  | _ => concat tables
  end.

Section SectionMatcher.

(** [re.compile(pat).search] for the patterns that are [Re.Beyond]: the
    predicate on the searched string, or [None] when the library rejects the
    pattern. *)
Variable re_beyond : string -> option (string -> bool).

(** [re.compile(pat)], as the predicate "[search] finds a match". *)
Definition re_compile (pat : string) : outcome (string -> bool) :=
  match Re.parse pat with
  | Re.Atoms r => Returns (Re.search r)
  | Re.BadEscape => Raises ReError
  | Re.Beyond =>
      match re_beyond pat with
      | Some found => Returns found
      | None => Raises ReError
      end
  end.

(** [.str.contains(pat, na=False)] on one cell. *)
Definition cell_contains (found : string -> bool) (c : Cell) : bool :=
  match c with
  | Some s => found s
  | None => false
  end.

(** [data['OPR'].str.contains(section_number, na=False)]: the mask over the
    rows of [data]. A pattern that is not a string is a [TypeError]. *)
Definition opr_mask (data : DataFrame) (section_number : json)
  : outcome (list bool) :=
  col <- str_column data "OPR" ;;
  match section_number with
  | JString pat =>
      found <- re_compile pat ;; Returns (map (cell_contains found) col)
  | _ => Raises TypeError
  end.

(** Lines 118-119 *)
Definition matches (data : DataFrame) (section_number : json)
  : outcome DataFrame :=
  if negb (frame_empty data) then
    mask <- opr_mask data section_number ;;
    Returns {| columns := columns data; rows := select mask (rows data) |}
  else Returns empty_frame.

(** Line 123 *)
Definition result_message (n1 n2 : nat) (section : string) : string :=
  "Found " ++ Str.of_nat n1 ++ " matches in PDF1 and " ++ Str.of_nat n2
  ++ " matches in PDF2 for section " ++ section.

(** Lines 109-124, the body of the loop over the sections. *)
Definition process_section (pdf1_tables pdf2_tables : list DataFrame)
  (entry : string * json) : outcome (string * string) :=
  let (section, data) := entry in
  section_number <- getitem data "number" ;;
  section_date <- getitem data "date" ;;
  pdf1_data <- combined pdf1_tables ;;
  pdf2_data <- combined pdf2_tables ;;
  pdf1_matches <- matches pdf1_data section_number ;;
  pdf2_matches <- matches pdf2_data section_number ;;
  Returns (section,
           result_message (List.length (rows pdf1_matches))
             (List.length (rows pdf2_matches)) section).

(** Lines 91-131: the handler, from the parsed uploads and the parsed
    [sections] field to the mapping from section to result text. *)
Definition process_pdfs (pdf1 pdf2 : list Page) (sections_data : json)
  : outcome (list (string * string)) :=
  guard500 (
    pdf1_tables <- process_pdf pdf1 ;;
    pdf2_tables <- process_pdf pdf2 ;;
    entries <- items sections_data ;;
    mapM (process_section pdf1_tables pdf2_tables) entries).

End SectionMatcher.

(** ** The matching rule in the words of the specification *)

(** A cell matches the number [n] when it holds a string in which [n] occurs
    as it is written; a missing value does not match. *)
Definition plain_substring_match (n : string) (c : Cell) : bool :=
  match c with
  | Some s => Str.contains n s
  | None => false
  end.

(** A request entry with both keys. *)
Definition section_request (number date : string) : json :=
  JObject [("number", JString number); ("date", JString date)].

(** An engine that rejects every pattern left to it. *)
Definition reject_beyond : string -> option (string -> bool) :=
  fun _ => None.

(** ** Notions used in the statements *)

(** Line 61: [col_x0 <= x <= col_x1] *)
Definition in_band (x : Z) (band : Z * Z) : bool :=
  (fst band <=? x) && (x <=? snd band).

Definition first_char (s : string) : option ascii :=
  match s with EmptyString => None | String c _ => Some c end.

Fixpoint last_char (s : string) : option ascii :=
  match s with
  | EmptyString => None
  | String c EmptyString => Some c
  | String _ r => last_char r
  end.

(** No white space at either end. *)
Definition trimmed (s : string) : Prop :=
  (forall c, first_char s = Some c -> Str.is_space c = false) /\
  (forall c, last_char s = Some c -> Str.is_space c = false).

(** The OPR cell of a row of the table [t]: the cell under the first column
    labelled OPR, a missing value when the table has no such column. *)
Definition opr_cell (t : DataFrame) (r : list Cell) : Cell :=
  match positions "OPR" (columns t) 0 with
  | j :: _ => cell_at j r
  | [] => None
  end.

(** The words of a page with the text "OPR". *)
Definition opr_words (page : Page) : list Word :=
  filter (fun w => String.eqb (text w) "OPR") page.

(** A page on which the label OPR comes twice. *)
Definition page_with_two_opr : Page :=
  [mkWord "OPR" 10 30 0; mkWord "OPR" 50 70 0; mkWord "AB" 10 20 20].

(** A page with a POL column only. *)
Definition page_without_opr : Page :=
  [mkWord "POL" 10 30 0; mkWord "X" 10 15 20].

(** The number of an entry of the payload, when it is a string. *)
Definition entry_number (entry : string * json) : string :=
  match snd entry with
  | JObject fields =>
      match assoc "number" fields with
      | Some (JString n) => n
      | _ => ""
      end
  | _ => ""
  end.

(** The rows of a table, and of the tables of a document, whose OPR cell
    contains [n] as it is written. *)
Definition table_matches (n : string) (t : DataFrame) : nat :=
  List.length
    (filter (fun r => plain_substring_match n (opr_cell t r)) (rows t)).

Definition document_matches (n : string) (ts : list DataFrame) : nat :=
  list_sum (map (table_matches n) ts).

(** Tables that combine without error and with one OPR column: no table
    repeats a label, and some table has the label OPR, unless there is no
    table at all. *)
Definition regular_tables (ts : list DataFrame) : Prop :=
  (forall t, In t ts -> has_dup (columns t) = false) /\
  (ts = [] \/ exists t, In t ts /\ In "OPR" (columns t)).

(** A page with a word to the right of every band, 3 units below a line. *)
Definition page_with_stray_word : Page :=
  [mkWord "OPR" 10 30 0; mkWord "AB" 10 20 20; mkWord "stray" 200 230 23].

(** ** Sample pages *)

Module Sample.

(** One column; two words of the same line fall into its band. *)
Definition two_words : Page :=
  [mkWord "OPR" 10 30 0; mkWord "AB" 10 20 20; mkWord "CD" 24 34 20].

(** Two columns; a line without operator, a complete line. *)
Definition two_columns : Page :=
  [mkWord "POL" 10 30 0; mkWord "OPR" 50 70 0;
   mkWord "X" 10 15 20;
   mkWord "Y" 10 15 40; mkWord "Z" 50 55 40].

(** One column; a line of totals. *)
Definition with_total : Page :=
  [mkWord "OPR" 10 30 0; mkWord "SubTotal" 10 30 20; mkWord "AB" 10 20 40].

(** One column; three lines less than 5 units apart. *)
Definition close_lines : Page :=
  [mkWord "OPR" 10 30 0; mkWord "AB" 10 20 10; mkWord "CD" 12 20 12;
   mkWord "EF" 14 20 16].

(** A page without any header label. *)
Definition no_header : Page := [mkWord "hello" 0 25 0; mkWord "OPRX" 30 50 0].

End Sample.

(** * Properties *)

(** ** Strings *)

Lemma is_empty_true (s : string) : Str.is_empty s = true <-> s = "".
Proof. destruct s; simpl; split; intros H; congruence. Qed.

Lemma lstrip_all_space (s : string) :
  Str.all_space s = true -> Str.lstrip s = "".
Proof.
  induction s as [|c r IH]; simpl; [reflexivity|].
  intros H. apply andb_true_iff in H as [Hc Hr]. rewrite Hc. auto.
Qed.

Lemma all_space_lstrip (s : string) :
  Str.all_space (Str.lstrip s) = Str.all_space s.
Proof.
  induction s as [|c r IH]; simpl; [reflexivity|].
  destruct (Str.is_space c) eqn:Hc; simpl; [assumption|].
  now rewrite Hc.
Qed.

Lemma rstrip_empty (s : string) :
  Str.rstrip s = "" <-> Str.all_space s = true.
Proof.
  induction s as [|c r IH]; simpl; [tauto|].
  destruct (Str.is_space c); simpl.
  - destruct (Str.rstrip r) eqn:Hr; simpl.
    + split; intros _; [now apply IH | reflexivity].
    + split; intros H; [discriminate|].
      apply IH in H. discriminate.
  - split; discriminate.
Qed.

(** Stripping leaves nothing exactly when the string is blank. *)
Lemma strip_empty (s : string) :
  Str.strip s = "" <-> Str.all_space s = true.
Proof.
  unfold Str.strip. rewrite rstrip_empty. now rewrite all_space_lstrip.
Qed.

Lemma prefix_spec (p s : string) :
  String.prefix p s = true <-> exists b, s = p ++ b.
Proof.
  revert s. induction p as [|c p IH]; intros s; simpl.
  - split; [intros _; now exists s | destruct s; reflexivity].
  - destruct s as [|d s]; simpl.
    + split; [discriminate | intros [b Hb]; discriminate].
    + destruct (ascii_dec c d) as [->|Hne].
      * rewrite IH. split; intros [b Hb]; exists b; congruence.
      * split; [discriminate | intros [b Hb]; congruence].
Qed.

(** [Str.contains p s] holds exactly when [p] occurs in [s] at some offset. *)
Lemma contains_spec (p s : string) :
  Str.contains p s = true <-> exists a b, s = a ++ p ++ b.
Proof.
  induction s as [|c s IH]; cbn [Str.contains].
  - rewrite orb_false_r, prefix_spec. split.
    + intros [b Hb]. now exists "", b.
    + intros [a [b Hb]]. destruct a; simpl in Hb; [now exists b|discriminate].
  - rewrite orb_true_iff, IH, prefix_spec. split.
    + intros [[b Hb]|[a [b Hb]]].
      * now exists "", b.
      * exists (String c a), b. simpl. now rewrite Hb.
    + intros [a [b Hb]]. destruct a as [|d a]; simpl in Hb.
      * left. now exists b.
      * right. exists a, b. congruence.
Qed.

(** ** Regular expressions without special characters *)

Lemma parse_no_special (pat : string) :
  Re.no_special pat = true -> Re.parse pat = Re.Atoms (Re.literals pat).
Proof.
  induction pat as [|c r IH]; simpl; [reflexivity|].
  intros H. apply andb_true_iff in H as [Hc Hr].
  apply negb_true_iff in Hc. rewrite (IH Hr).
  assert (Hdot : c <> "."%char) by (intros ->; discriminate).
  assert (Hbs : c <> "\"%char) by (intros ->; discriminate).
  rewrite Hc.
  destruct c as [[] [] [] [] [] [] [] []]; try reflexivity; congruence.
Qed.

Lemma match_here_literals (p s : string) :
  Re.match_here (Re.literals p) s = String.prefix p s.
Proof.
  revert s. induction p as [|c p IH]; intros s.
  - now destruct s.
  - destruct s as [|d s]; [reflexivity|].
    cbn [Re.literals Re.match_here Re.atom_matches String.prefix].
    destruct (ascii_dec c d) as [->|Hne].
    + now rewrite Ascii.eqb_refl, IH.
    + apply Ascii.eqb_neq in Hne. now rewrite Hne.
Qed.

Lemma search_literals (p s : string) :
  Re.search (Re.literals p) s = Str.contains p s.
Proof.
  induction s as [|c s IH]; cbn [Re.search Str.contains];
    rewrite match_here_literals; [reflexivity|].
  now rewrite IH.
Qed.

(** ** Rows under construction *)

Lemma length_add_at (i : nat) (t : string) (row : list string) :
  List.length (add_at i t row) = List.length row.
Proof.
  revert i. induction row as [|c r IH]; intros [|j]; simpl; auto.
Qed.

Lemma nth_error_add_at (i j : nat) (t : string) (row : list string) :
  nth_error (add_at i t row) j =
  if (i =? j)%nat then option_map (fun c => (c ++ t)%string) (nth_error row j)
  else nth_error row j.
Proof.
  revert i j. induction row as [|c r IH]; intros [|i] [|j]; simpl;
    try reflexivity.
  - now destruct (i =? j)%nat.
  - apply IH.
Qed.

Lemma length_add_word cols y row w :
  List.length (add_word cols y row w) = List.length row.
Proof.
  unfold add_word. destruct (Z.abs (top w - y) <? 5); [|reflexivity].
  destruct (match_column cols (x0 w) 0); [|reflexivity].
  destruct (_ <? _)%nat; [apply length_add_at | reflexivity].
Qed.

Lemma length_fold_add_word cols y words row :
  List.length (fold_left (add_word cols y) words row) = List.length row.
Proof.
  revert row. induction words as [|w ws IH]; intros row; simpl; [reflexivity|].
  now rewrite IH, length_add_word.
Qed.

(** A candidate row has one cell per column, whatever the words are. *)
Lemma length_build_row hs words y :
  List.length (build_row hs words y) = List.length hs.
Proof.
  unfold build_row. rewrite length_fold_add_word, repeat_length.
  unfold column_names. apply length_map.
Qed.

Lemma match_column_bound cols x k i :
  match_column cols x k = Some i -> (k <= i < k + List.length cols)%nat.
Proof.
  revert k. induction cols as [|[a b] r IH]; intros k; simpl; [discriminate|].
  destruct ((a <=? x) && (x <=? b)).
  - intros [= ->]. lia.
  - intros H. apply IH in H. lia.
Qed.

Lemma append_assoc (a b c : string) : ((a ++ b) ++ c = a ++ (b ++ c))%string.
Proof. induction a as [|x a IH]; simpl; [reflexivity | now rewrite IH]. Qed.

Lemma append_empty_r (a : string) : (a ++ "")%string = a.
Proof. induction a as [|x a IH]; simpl; [reflexivity | now rewrite IH]. Qed.

Lemma nth_error_add_word cols y row w i c :
  List.length row = List.length cols ->
  nth_error row i = Some c ->
  nth_error (add_word cols y row w) i =
  Some (if lands_in cols y i w then c ++ piece w else c)%string.
Proof.
  intros Hlen Hc. unfold add_word, lands_in.
  destruct (Z.abs (top w - y) <? 5); simpl; [|assumption].
  destruct (match_column cols (x0 w) 0) as [j|] eqn:Hj; [|assumption].
  apply match_column_bound in Hj.
  replace (j <? List.length row)%nat with true
    by (symmetry; apply Nat.ltb_lt; lia).
  rewrite nth_error_add_at. destruct (j =? i)%nat; [|assumption].
  now rewrite Hc.
Qed.

Lemma nth_error_fold_add_word cols y words row i c :
  List.length row = List.length cols ->
  nth_error row i = Some c ->
  nth_error (fold_left (add_word cols y) words row) i =
  Some (c ++ join_pieces (filter (lands_in cols y i) words))%string.
Proof.
  revert row c. induction words as [|w ws IH]; intros row c Hlen Hc; simpl.
  - now rewrite append_empty_r.
  - rewrite (IH _ (if lands_in cols y i w then c ++ piece w else c)%string).
    + destruct (lands_in cols y i w); simpl; [|reflexivity].
      now rewrite append_assoc.
    + now rewrite length_add_word.
    + now apply nth_error_add_word.
Qed.

(** Each cell of a candidate row is the pieces of its words one after the
    other, in the order of the words on the page, with nothing in between. *)
Lemma build_row_cell hs words y i :
  (i < List.length hs)%nat ->
  nth_error (build_row hs words y) i =
  Some (join_pieces (filter (lands_in (column_positions hs) y i) words)).
Proof.
  intros Hi. unfold build_row.
  rewrite (nth_error_fold_add_word _ _ _ _ _ "").
  - reflexivity.
  - rewrite repeat_length. unfold column_names, column_positions.
    now rewrite !length_map.
  - apply nth_error_repeat. unfold column_names. now rewrite length_map.
Qed.

(** ** Headers and anchors *)

Lemma length_insert_by {A} (key : A -> Z) (a : A) (l : list A) :
  List.length (insert_by key a l) = S (List.length l).
Proof.
  induction l as [|b r IH]; simpl; [reflexivity|].
  destruct (key a <=? key b); simpl; auto.
Qed.

Lemma length_sort_by {A} (key : A -> Z) (l : list A) :
  List.length (sort_by key l) = List.length l.
Proof.
  induction l as [|a r IH]; simpl; [reflexivity|].
  now rewrite length_insert_by, IH.
Qed.

Lemma length_detect_headers (words : list Word) :
  List.length (detect_headers words) =
  List.length (filter is_header_word words).
Proof.
  induction words as [|w r IH]; simpl; [reflexivity|].
  destruct (is_header_word w); simpl; auto.
Qed.

(** One column per header word of the page. *)
Lemma length_header_positions (words : list Word) :
  List.length (header_positions words) =
  List.length (filter is_header_word words).
Proof.
  unfold header_positions. now rewrite length_sort_by, length_detect_headers.
Qed.

Lemma detect_headers_none (words : list Word) :
  (forall w, In w words -> is_header_word w = false) ->
  detect_headers words = [].
Proof.
  induction words as [|w r IH]; simpl; intros H; [reflexivity|].
  rewrite (H w) by now left. apply IH. intros v Hv. apply H. now right.
Qed.

Lemma In_insert_uniq (x z : Z) (l : list Z) :
  In x (insert_uniq z l) <-> x = z \/ In x l.
Proof.
  induction l as [|y r IH]; simpl; [intuition|].
  destruct (z <? y) eqn:Hlt; simpl; [intuition|].
  destruct (z =? y) eqn:Heq; simpl.
  - apply Z.eqb_eq in Heq. subst. intuition.
  - rewrite IH. intuition.
Qed.

Lemma sorted_insert_uniq (z : Z) (l : list Z) :
  StronglySorted Z.lt l -> StronglySorted Z.lt (insert_uniq z l).
Proof.
  induction 1 as [|y r Hs IH Hall]; simpl.
  - constructor; constructor.
  - destruct (z <? y) eqn:Hlt.
    + apply Z.ltb_lt in Hlt. constructor; [now constructor|].
      constructor; [assumption|].
      eapply Forall_impl; [|exact Hall]. simpl. intros; lia.
    + destruct (z =? y) eqn:Heq; [now constructor|].
      apply Z.ltb_ge in Hlt. apply Z.eqb_neq in Heq.
      constructor; [assumption|].
      apply Forall_forall. intros x Hx. apply In_insert_uniq in Hx as [->|Hx].
      * lia.
      * rewrite Forall_forall in Hall. auto.
Qed.

Lemma In_row_positions (words : list Word) (y : Z) :
  In y (row_positions words) <-> exists w, In w words /\ top w = y.
Proof.
  unfold row_positions. induction words as [|w r IH]; simpl.
  - split; [tauto | intros [? [[] _]]].
  - rewrite In_insert_uniq, IH. split.
    + intros [->|[v [Hv Ht]]]; [exists w; auto | exists v; auto].
    + intros [v [[->|Hv] Ht]]; [now left | right; now exists v].
Qed.

Lemma sorted_row_positions (words : list Word) :
  StronglySorted Z.lt (row_positions words).
Proof.
  unfold row_positions. induction (map top words) as [|z l IH]; simpl.
  - constructor.
  - now apply sorted_insert_uniq.
Qed.

Lemma sorted_NoDup (l : list Z) : StronglySorted Z.lt l -> NoDup l.
Proof.
  induction 1 as [|y r Hs IH Hall]; constructor; [|assumption].
  intros Hin. rewrite Forall_forall in Hall. apply Hall in Hin. lia.
Qed.

(** ** Cleaning the candidate rows *)

Lemma select_map {A} (f : A -> bool) (l : list A) :
  select (map f l) l = filter f l.
Proof.
  induction l as [|a r IH]; simpl; [reflexivity|].
  now destruct (f a); rewrite IH.
Qed.

Lemma positions_lb label names k i :
  In i (positions label names k) -> (k <= i)%nat.
Proof.
  revert k. induction names as [|n r IH]; intros k; simpl; [tauto|].
  destruct (String.eqb n label); simpl.
  - intros [<-|H]; [lia | apply IH in H; lia].
  - intros H. apply IH in H. lia.
Qed.

Lemma In_positions label names k i :
  nth_error names i = Some label -> In (k + i)%nat (positions label names k).
Proof.
  revert k i. induction names as [|n r IH]; intros k [|i]; simpl;
    try discriminate.
  - intros [= ->]. rewrite String.eqb_refl, Nat.add_0_r. now left.
  - intros H. replace (k + S i)%nat with (S k + i)%nat by lia.
    destruct (String.eqb n label); [right|]; now apply IH.
Qed.

Lemma positions_nil label names k :
  in_list label names = false -> positions label names k = [].
Proof.
  unfold in_list. revert k.
  induction names as [|n r IH]; intros k; simpl; [reflexivity|].
  rewrite String.eqb_sym.
  destruct (String.eqb n label); simpl; [discriminate | apply IH].
Qed.

(** What every row of a cleaned table satisfies. *)
Lemma clean_table_rows data names df :
  clean_table data names = Returns df ->
  columns df = names /\
  forall r, In r (rows df) ->
    In r (map (map Some) data) /\
    existsb contains_total r = false /\
    differs_from_header names r = true /\
    forall i, In i (positions "OPR" names 0) ->
              opr_populated (cell_at i r) = true.
Proof.
  unfold clean_table, drop_blank_opr, str_column. cbn [columns rows
    drop_header_rows drop_total dropna_all filter_rows new_frame].
  set (kept := filter _ (filter _ (filter _ _))).
  assert (Hkept : forall r, In r kept ->
            In r (map (map Some) data) /\ existsb contains_total r = false /\
            differs_from_header names r = true).
  { intros r Hr. unfold kept in Hr.
    apply filter_In in Hr as [Hr H3]. apply filter_In in Hr as [Hr H2].
    apply filter_In in Hr as [Hr _]. apply negb_true_iff in H2. auto. }
  destruct (in_list "OPR" names) eqn:Hopr.
  - destruct (positions "OPR" names 0) as [|i [|j l]] eqn:Hpos;
      cbn [bind]; try discriminate.
    intros [= <-]. cbn [columns rows]. split; [reflexivity|].
    intros r Hr. rewrite map_map, select_map in Hr.
    apply filter_In in Hr as [Hr Hi].
    destruct (Hkept r Hr) as (H1 & H2 & H3). repeat split; auto.
    intros k [<-|[]]. exact Hi.
  - intros [= <-]. cbn [columns rows]. split; [reflexivity|].
    intros r Hr. destruct (Hkept r Hr) as (H1 & H2 & H3). repeat split; auto.
    rewrite (positions_nil _ _ _ Hopr). intros i [].
Qed.

(** A page that yields a table has words, headers and candidate rows, and
    the table is the cleaned frame of the candidate rows. *)
Lemma process_page_table words df :
  process_page words = Returns (Some df) ->
  clean_table (table_data (header_positions words) words)
    (column_names (header_positions words)) = Returns df.
Proof.
  unfold process_page. destruct words as [|w ws]; [discriminate|].
  destruct (header_positions (w :: ws)) as [|h hs]; [discriminate|].
  destruct (table_data (h :: hs) (w :: ws)) as [|d ds]; [discriminate|].
  destruct (clean_table _ _) as [df'|e]; cbn [bind]; [|discriminate].
  destruct (frame_empty df'); [discriminate|]. now intros [= ->].
Qed.

Lemma In_table_data hs words row :
  In row (table_data hs words) <->
  (exists y, In y (row_positions words) /\ row = build_row hs words y) /\
  any_cell row = true.
Proof.
  unfold table_data. rewrite filter_In, in_map_iff. unfold keep_row.
  split.
  - intros [[y [<- Hy]] H]. apply andb_true_iff in H as [_ H]. eauto.
  - intros [[y [Hy ->]] H]. split; [eauto|].
    rewrite H, andb_true_r. apply Nat.eqb_eq.
    rewrite length_build_row. unfold column_names. now rewrite length_map.
Qed.

(** ** The table extractor *)

(** C3: every row of the table of a page has as many cells as the page has
    header words, which is also the number of columns of the table; the row
    is a whole candidate row, the one built for some anchor of the page. *)
Theorem C3_row_width_is_header_count (words : Page) (df : DataFrame)
  (r : list Cell) :
  process_page words = Returns (Some df) ->
  In r (rows df) ->
  List.length r = List.length (filter is_header_word words) /\
  List.length (columns df) = List.length (filter is_header_word words) /\
  exists y, In y (row_positions words) /\
            r = map Some (build_row (header_positions words) words y).
Proof.
  intros Hp Hr. apply process_page_table in Hp.
  apply clean_table_rows in Hp as [Hcols Hrows].
  destruct (Hrows r Hr) as [Hin _].
  apply in_map_iff in Hin as [row [<- Hrow]].
  apply In_table_data in Hrow as [[y [Hy ->]] _].
  rewrite Hcols. unfold column_names.
  rewrite !length_map, length_build_row, length_header_positions.
  repeat split. now exists y.
Qed.

Lemma C3_row_width_is_header_count_witness :
  let df := {| columns := ["POL"; "OPR"]; rows := [[Some "Y"; Some "Z"]] |} in
  process_page Sample.two_columns = Returns (Some df) /\
  List.length [Some "Y"; Some "Z"] = 2%nat /\
  List.length (filter is_header_word Sample.two_columns) = 2%nat.
Proof.
  assert (Hp : process_page Sample.two_columns = Returns (Some
    {| columns := ["POL"; "OPR"]; rows := [[Some "Y"; Some "Z"]] |}))
    by reflexivity.
  split; [exact Hp|].
  destruct (C3_row_width_is_header_count Sample.two_columns _
              [Some "Y"; Some "Z"] Hp) as (H1 & _ & _).
  - simpl. now left.
  - split; [reflexivity|]. rewrite <- H1. reflexivity.
Defined.

Lemma extract_tables_no_header (pdf : list Page) :
  (forall page w, In page pdf -> In w page -> is_header_word w = false) ->
  extract_tables pdf = Returns [].
Proof.
  induction pdf as [|page r IH]; intros H; simpl; [reflexivity|].
  assert (Hpage : process_page page = Returns None).
  { unfold process_page. destruct page as [|w ws]; [reflexivity|].
    unfold header_positions. rewrite detect_headers_none; [reflexivity|].
    intros v Hv. apply (H (w :: ws)); [now left | assumption]. }
  rewrite Hpage. cbn [bind]. rewrite IH; [reflexivity|].
  intros q w Hq Hw. apply (H q); [now right | assumption].
Qed.

(** C5: a PDF in which no word of any page is one of the target labels
    yields the empty sequence of tables. *)
Theorem C5_no_header_no_table (pdf : list Page) :
  (forall page w, In page pdf -> In w page ->
     in_list (text w) TARGET_HEADERS = false) ->
  process_pdf pdf = Returns [].
Proof.
  intros H. unfold process_pdf. now rewrite extract_tables_no_header.
Qed.

Lemma C5_no_header_no_table_witness :
  process_pdf [Sample.no_header; []] = Returns [].
Proof.
  apply (C5_no_header_no_table [Sample.no_header; []]).
  intros page w [<-|[<-|[]]] Hw; simpl in Hw.
  - destruct Hw as [<-|[<-|[]]]; reflexivity.
  - destruct Hw.
Defined.

Lemma existsb_map {A B} (f : B -> bool) (g : A -> B) (l : list A) :
  existsb f (map g l) = existsb (fun a => f (g a)) l.
Proof.
  induction l as [|a r IH]; simpl; [reflexivity | now rewrite IH].
Qed.

(** C6: a candidate row with a cell that contains "total", whatever the case
    of its letters, is not a row of the page's table. *)
Theorem C6_total_rows_are_excluded (words : Page) (df : DataFrame)
  (row : list string) :
  process_page words = Returns (Some df) ->
  In row (table_data (header_positions words) words) ->
  (exists c, In c row /\ Str.contains "total" (Str.lower c) = true) ->
  ~ In (map Some row) (rows df).
Proof.
  intros Hp _ [c [Hc Htot]] Hin. apply process_page_table in Hp.
  apply clean_table_rows in Hp as [_ Hrows].
  destruct (Hrows _ Hin) as (_ & Hno & _).
  rewrite existsb_map in Hno.
  assert (Hyes : existsb (fun a => contains_total (Some a)) row = true)
    by (apply existsb_exists; now exists c).
  congruence.
Qed.

Lemma C6_total_rows_are_excluded_witness :
  let df := {| columns := ["OPR"]; rows := [[Some "AB"]] |} in
  process_page Sample.with_total = Returns (Some df) /\
  In ["SubTotal"]
    (table_data (header_positions Sample.with_total) Sample.with_total) /\
  ~ In [Some "SubTotal"] (rows df).
Proof.
  assert (Hp : process_page Sample.with_total = Returns (Some
    {| columns := ["OPR"]; rows := [[Some "AB"]] |})) by reflexivity.
  assert (Hrow : In ["SubTotal"]
    (table_data (header_positions Sample.with_total) Sample.with_total))
    by (vm_compute; tauto).
  split; [exact Hp|]. split; [exact Hrow|].
  apply (C6_total_rows_are_excluded Sample.with_total _ ["SubTotal"] Hp Hrow).
  exists "SubTotal". split; [now left | reflexivity].
Defined.

Lemma differs_from_header_same (names : list string) :
  differs_from_header names (map Some names) = false.
Proof.
  unfold differs_from_header.
  induction names as [|n r IH]; simpl; [reflexivity|].
  now rewrite String.eqb_refl.
Qed.

Lemma Forall2_eq {A} (l l' : list A) : Forall2 eq l l' -> l = l'.
Proof. induction 1; [reflexivity | congruence]. Qed.

(** C7: a candidate row in which every cell is the label of its column is
    not a row of the page's table. *)
Theorem C7_header_rows_are_excluded (words : Page) (df : DataFrame)
  (row : list string) :
  process_page words = Returns (Some df) ->
  In row (table_data (header_positions words) words) ->
  Forall2 eq row (column_names (header_positions words)) ->
  ~ In (map Some row) (rows df).
Proof.
  intros Hp _ Hsame Hin. apply process_page_table in Hp.
  apply clean_table_rows in Hp as [_ Hrows].
  destruct (Hrows _ Hin) as (_ & _ & Hdiff & _).
  rewrite (Forall2_eq _ _ Hsame), differs_from_header_same in Hdiff.
  discriminate.
Qed.

Lemma C7_header_rows_are_excluded_witness :
  let df := {| columns := ["POL"; "OPR"]; rows := [[Some "Y"; Some "Z"]] |} in
  process_page Sample.two_columns = Returns (Some df) /\
  In ["POL"; "OPR"]
    (table_data (header_positions Sample.two_columns) Sample.two_columns) /\
  ~ In [Some "POL"; Some "OPR"] (rows df).
Proof.
  assert (Hp : process_page Sample.two_columns = Returns (Some
    {| columns := ["POL"; "OPR"]; rows := [[Some "Y"; Some "Z"]] |}))
    by reflexivity.
  assert (Hrow : In ["POL"; "OPR"]
    (table_data (header_positions Sample.two_columns) Sample.two_columns))
    by (vm_compute; tauto).
  split; [exact Hp|]. split; [exact Hrow|].
  apply (C7_header_rows_are_excluded Sample.two_columns _ ["POL"; "OPR"]
           Hp Hrow).
  repeat constructor.
Defined.

(** C8: on a page with an OPR column, a candidate row whose OPR cell is
    empty or made of white space only is not a row of the page's table. *)
Theorem C8_blank_opr_rows_are_excluded (words : Page) (df : DataFrame)
  (row : list string) (i : nat) (c : string) :
  process_page words = Returns (Some df) ->
  In row (table_data (header_positions words) words) ->
  nth_error (column_names (header_positions words)) i = Some "OPR" ->
  nth_error row i = Some c ->
  Str.all_space c = true ->
  ~ In (map Some row) (rows df).
Proof.
  intros Hp _ Hi Hc Hblank Hin. apply process_page_table in Hp.
  apply clean_table_rows in Hp as [_ Hrows].
  destruct (Hrows _ Hin) as (_ & _ & _ & Hopr).
  specialize (Hopr i (In_positions _ _ 0%nat _ Hi)).
  unfold cell_at in Hopr. rewrite nth_error_map, Hc in Hopr. simpl in Hopr.
  apply strip_empty in Hblank. rewrite Hblank in Hopr. discriminate.
Qed.

Lemma C8_blank_opr_rows_are_excluded_witness :
  let df := {| columns := ["POL"; "OPR"]; rows := [[Some "Y"; Some "Z"]] |} in
  process_page Sample.two_columns = Returns (Some df) /\
  In ["X"; ""]
    (table_data (header_positions Sample.two_columns) Sample.two_columns) /\
  ~ In [Some "X"; Some ""] (rows df).
Proof.
  assert (Hp : process_page Sample.two_columns = Returns (Some
    {| columns := ["POL"; "OPR"]; rows := [[Some "Y"; Some "Z"]] |}))
    by reflexivity.
  assert (Hrow : In ["X"; ""]
    (table_data (header_positions Sample.two_columns) Sample.two_columns))
    by (vm_compute; tauto).
  split; [exact Hp|]. split; [exact Hrow|].
  apply (C8_blank_opr_rows_are_excluded Sample.two_columns _ ["X"; ""]
           1%nat "" Hp Hrow); reflexivity.
Defined.

(** C2: two words of one line that fall into the same column. The cell is
    the two texts one directly after the other, "ABCD": the text with its
    leading blank is stripped before it is appended, so no separator is left
    between the words. *)
Theorem C2_words_joined_without_space :
  let hs := header_positions Sample.two_words in
  filter (lands_in (column_positions hs) 20 0) Sample.two_words =
    [mkWord "AB" 10 20 20; mkWord "CD" 24 34 20] /\
  build_row hs Sample.two_words 20 = ["ABCD"] /\
  "ABCD" <> "AB CD" /\
  process_page Sample.two_words =
    Returns (Some {| columns := ["OPR"]; rows := [[Some "ABCD"]] |}).
Proof.
  cbv zeta. repeat split; try reflexivity. discriminate.
Qed.

Lemma join_pieces_app (a b : list Word) :
  join_pieces (a ++ b)%list = (join_pieces a ++ join_pieces b)%string.
Proof.
  induction a as [|w a IH]; simpl; [reflexivity|].
  now rewrite IH, append_assoc.
Qed.

(** C10: the top of every word of a page is an anchor of the page, whether
    or not the word falls into a column, and the anchors are these tops, each
    once; a word whose top is less than 5 units from an anchor is collected
    into the row of that anchor, in the column whose band holds its left
    edge; on the page [Sample.close_lines] the word "AB" is thereby part of
    two different rows of the table. *)
Theorem C10_word_in_every_close_row (words : Page) (w : Word) :
  let hs := header_positions words in
  In w words ->
  (In (top w) (row_positions words) /\
   NoDup (row_positions words) /\
   forall y, In y (row_positions words) <->
             exists v, In v words /\ top v = y) /\
  (forall y i,
     In y (row_positions words) ->
     Z.abs (top w - y) < 5 ->
     match_column (column_positions hs) (x0 w) 0 = Some i ->
     exists before after,
       filter (lands_in (column_positions hs) y i) words =
         (before ++ w :: after)%list /\
       nth_error (build_row hs words y) i =
         Some (join_pieces before ++ piece w ++ join_pieces after)%string) /\
  (let page := Sample.close_lines in
   let ab := mkWord "AB" 10 20 10 in
   let cols := column_positions (header_positions page) in
   In ab page /\
   lands_in cols 10 0 ab = true /\ lands_in cols 12 0 ab = true /\
   build_row (header_positions page) page 10 = ["ABCD"] /\
   build_row (header_positions page) page 12 = ["ABCDEF"] /\
   process_page page =
     Returns (Some {| columns := ["OPR"];
                      rows := [[Some "ABCD"]; [Some "ABCDEF"];
                               [Some "CDEF"]] |})).
Proof.
  intros hs Hw. split; [|split].
  - split; [|split].
    + apply In_row_positions. now exists w.
    + apply sorted_NoDup, sorted_row_positions.
    + intros y. apply In_row_positions.
  - intros y i Hy Hclose Hcol.
    assert (Hland : In w (filter (lands_in (column_positions hs) y i) words)).
    { apply filter_In. split; [assumption|]. unfold lands_in.
      rewrite Hcol, Nat.eqb_refl, andb_true_r. now apply Z.ltb_lt. }
    destruct (in_split _ _ Hland) as [before [after Hsplit]].
    exists before, after. split; [assumption|].
    rewrite build_row_cell.
    + rewrite Hsplit, join_pieces_app. reflexivity.
    + apply match_column_bound in Hcol. unfold column_positions in Hcol.
      rewrite length_map in Hcol. fold hs. lia.
  - cbv zeta. repeat split; try reflexivity. simpl. tauto.
Qed.

Lemma C10_word_in_every_close_row_witness :
  In 23 (row_positions page_with_stray_word) /\
  match_column
    (column_positions (header_positions page_with_stray_word)) 200 0 = None /\
  process_page page_with_stray_word =
    Returns (Some {| columns := ["OPR"];
                     rows := [[Some "AB"]; [Some "AB"]] |}).
Proof.
  destruct (C10_word_in_every_close_row page_with_stray_word
              (mkWord "stray" 200 230 23)) as ((H & _ & _) & _ & _).
  - simpl. tauto.
  - split; [exact H|]. split; reflexivity.
Defined.

(** ** The section matcher *)

Lemma mapM_returns {A B} (f : A -> outcome B) (g : A -> B) (l : list A) :
  (forall a, In a l -> f a = Returns (g a)) ->
  mapM f l = Returns (map g l).
Proof.
  induction l as [|a r IH]; intros H; simpl; [reflexivity|].
  rewrite (H a) by now left. cbn [bind].
  rewrite IH; [reflexivity|]. intros b Hb. apply H. now right.
Qed.

Lemma mapM_raises {A B} (f : A -> outcome B) (l : list A) (a : A) :
  In a l -> (exists e, f a = Raises e) -> exists e, mapM f l = Raises e.
Proof.
  intros Hin Hf. induction l as [|b r IH]; [destruct Hin|]. simpl.
  destruct (f b) as [v|e] eqn:Hb; cbn [bind]; [|now exists e].
  destruct Hin as [->|Hin].
  - destruct Hf as [e He]. congruence.
  - destruct (IH Hin) as [e He]. rewrite He. now exists e.
Qed.

Lemma guard500_raises {A} (m : outcome A) :
  (exists e, m = Raises e) ->
  exists e, guard500 m = Raises (HTTPException 500 e).
Proof. intros [e ->]. now exists e. Qed.

Lemma process_pdf_cases (pdf : list Page) :
  (exists ts, process_pdf pdf = Returns ts) \/
  (exists e, process_pdf pdf = Raises e).
Proof. destruct (process_pdf pdf) as [ts|e]; eauto. Qed.

(** C4: when the extraction yields no table for either PDF, a request whose
    entries carry their two keys is answered, and the result of every section
    reports zero matches in both documents. *)
Theorem C4_no_tables_zero_matches
  (re_beyond : string -> option (string -> bool))
  (pdf1 pdf2 : list Page) (entries : list (string * json)) :
  process_pdf pdf1 = Returns [] ->
  process_pdf pdf2 = Returns [] ->
  (forall section data, In (section, data) entries ->
     exists number date,
       getitem data "number" = Returns number /\
       getitem data "date" = Returns date) ->
  process_pdfs re_beyond pdf1 pdf2 (JObject entries) =
  Returns (map (fun e =>
    (fst e,
     "Found 0 matches in PDF1 and 0 matches in PDF2 for section " ++ fst e))
    entries).
Proof.
  intros H1 H2 Hwf. unfold process_pdfs. rewrite H1, H2. cbn [bind items].
  rewrite (mapM_returns _ (fun e =>
    (fst e,
     "Found 0 matches in PDF1 and 0 matches in PDF2 for section " ++ fst e)));
    [reflexivity|].
  intros [section data] Hin. destruct (Hwf _ _ Hin) as (n & d & Hn & Hd).
  unfold process_section. rewrite Hn, Hd. reflexivity.
Qed.

Lemma C4_no_tables_zero_matches_witness :
  process_pdfs reject_beyond [[]] [Sample.no_header]
    (JObject [("A", section_request "SEC-10" "2024-01-01");
              ("B", section_request "C*(" "")]) =
  Returns
    [("A", "Found 0 matches in PDF1 and 0 matches in PDF2 for section A");
     ("B", "Found 0 matches in PDF1 and 0 matches in PDF2 for section B")].
Proof.
  apply (C4_no_tables_zero_matches reject_beyond [[]] [Sample.no_header]).
  - reflexivity.
  - reflexivity.
  - intros section data [[= <- <-]|[[= <- <-]|[]]]; simpl; eauto.
Defined.

(** C9: a request with an entry that lacks the key "date", or the key
    "number", fails as a whole with the status 500, whatever the PDFs and the
    other entries are; and the value under "date" has no part in the result
    of an entry. *)
Theorem C9_missing_key_fails_request
  (re_beyond : string -> option (string -> bool))
  (pdf1 pdf2 : list Page) (entries : list (string * json))
  (section key : string) (fields : list (string * json)) :
  In (section, JObject fields) entries ->
  key = "date" \/ key = "number" ->
  assoc key fields = None ->
  (exists e, process_pdfs re_beyond pdf1 pdf2 (JObject entries) =
             Raises (HTTPException 500 e)) /\
  (forall t1 t2 name fields1 fields2,
     assoc "number" fields1 = assoc "number" fields2 ->
     assoc "date" fields1 <> None -> assoc "date" fields2 <> None ->
     process_section re_beyond t1 t2 (name, JObject fields1) =
     process_section re_beyond t1 t2 (name, JObject fields2)).
Proof.
  intros Hin Hkey Hnone. split.
  - unfold process_pdfs. apply guard500_raises.
    destruct (process_pdf_cases pdf1) as [[t1 ->]|[e ->]]; [|now exists e].
    destruct (process_pdf_cases pdf2) as [[t2 ->]|[e ->]]; [|now exists e].
    cbn [bind items]. apply (mapM_raises _ _ _ Hin).
    unfold process_section, getitem.
    destruct Hkey as [-> | ->].
    + rewrite Hnone. destruct (assoc "number" fields); cbn [bind]; eauto.
    + rewrite Hnone. cbn [bind]. eauto.
  - intros t1 t2 name fields1 fields2 Hnum Hd1 Hd2.
    unfold process_section, getitem. rewrite Hnum.
    destruct (assoc "date" fields1); [|congruence].
    destruct (assoc "date" fields2); [|congruence].
    reflexivity.
Qed.

Lemma C9_missing_key_fails_request_witness :
  exists e,
    process_pdfs reject_beyond [Sample.two_columns] [[]]
      (JObject [("A", section_request "Z" "2024-01-01");
                ("B", JObject [("number", JString "Z")])]) =
    Raises (HTTPException 500 e).
Proof.
  apply (C9_missing_key_fails_request reject_beyond [Sample.two_columns] [[]]
           _ "B" "date" [("number", JString "Z")]).
  - simpl. tauto.
  - now left.
  - reflexivity.
Defined.

Lemma re_compile_no_special re_beyond (n : string) :
  Re.no_special n = true ->
  re_compile re_beyond n = Returns (Re.search (Re.literals n)).
Proof.
  intros H. unfold re_compile. now rewrite parse_no_special.
Qed.

Lemma filter_ext_in_rows {A} (f g : A -> bool) (l : list A) :
  (forall a, f a = g a) -> filter f l = filter g l.
Proof.
  intros H. induction l as [|a r IH]; simpl; [reflexivity|].
  now rewrite H, IH.
Qed.

(** C1, as the code has it: the number is compiled as a regular expression.
    For a number without special characters a row of the combined dataset is
    counted exactly when its OPR cell contains the number as it is written,
    at any offset and with the case of its letters; for every number, a row
    with a missing OPR value is not counted; "SEC-10-ABC" matches "SEC-10". *)
Theorem C1_plain_numbers_match_as_substrings
  (re_beyond : string -> option (string -> bool))
  (data : DataFrame) (i : nat) (n : string) :
  frame_empty data = false ->
  positions "OPR" (columns data) 0 = [i] ->
  (Re.no_special n = true ->
   matches re_beyond data (JString n) =
   Returns {| columns := columns data;
              rows := filter (fun r => plain_substring_match n (cell_at i r))
                        (rows data) |}) /\
  (forall c, plain_substring_match n c = true <->
             exists s a b, c = Some s /\ s = a ++ n ++ b) /\
  (forall number out r,
     matches re_beyond data number = Returns out ->
     In r (rows out) -> cell_at i r <> None) /\
  Re.no_special "SEC-10" = true /\
  plain_substring_match "SEC-10" (Some "SEC-10-ABC") = true.
Proof.
  intros Hne Hpos. split; [|split; [|split]].
  - intros Hn. unfold matches, opr_mask, str_column.
    rewrite Hne, Hpos. cbn [negb bind].
    rewrite (re_compile_no_special _ _ Hn). cbn [bind].
    rewrite map_map, select_map. do 2 f_equal.
    apply filter_ext_in_rows. intros r. unfold cell_contains.
    destruct (cell_at i r); simpl; [apply search_literals | reflexivity].
  - intros [s|]; simpl.
    + rewrite contains_spec. split.
      * intros [a [b H]]. now exists s, a, b.
      * intros [s' [a [b [[= <-] H]]]]. now exists a, b.
    + split; [discriminate | intros [s [a [b [H _]]]]; discriminate].
  - intros number out r. unfold matches, opr_mask, str_column.
    rewrite Hne, Hpos. cbn [negb bind].
    destruct number as [| | |pat| |]; cbn [bind]; try discriminate.
    destruct (re_compile re_beyond pat) as [found|e]; cbn [bind];
      [|discriminate].
    intros [= <-]. cbn [rows]. rewrite map_map, select_map.
    intros Hr. apply filter_In in Hr as [_ Hr].
    destruct (cell_at i r); [discriminate | discriminate Hr].
  - split; reflexivity.
Qed.

Lemma C1_plain_numbers_match_as_substrings_witness :
  let data := {| columns := ["POL"; "OPR"];
                 rows := [[Some "a"; Some "SEC-10-ABC"]; [Some "b"; None];
                          [Some "c"; Some "sec-10"]] |} in
  matches reject_beyond data (JString "SEC-10") =
  Returns {| columns := ["POL"; "OPR"];
             rows := [[Some "a"; Some "SEC-10-ABC"]] |}.
Proof.
  cbv zeta.
  destruct (C1_plain_numbers_match_as_substrings reject_beyond
    {| columns := ["POL"; "OPR"];
       rows := [[Some "a"; Some "SEC-10-ABC"]; [Some "b"; None];
                [Some "c"; Some "sec-10"]] |} 1%nat "SEC-10")
    as (H & _).
  - reflexivity.
  - reflexivity.
  - rewrite (H eq_refl). reflexivity.
Defined.

(** C1 as stated fails: with the number "." the row whose OPR cell is "Z" is
    counted, though "." does not occur in "Z". *)
Lemma C1_counterexample :
  let data := {| columns := ["POL"; "OPR"];
                 rows := [[Some "Y"; Some "Z"]] |} in
  process_pdf [Sample.two_columns] = Returns [data] /\
  matches reject_beyond data (JString ".") = Returns data /\
  plain_substring_match "." (Some "Z") = false /\
  process_pdfs reject_beyond [Sample.two_columns] [[]]
    (JObject [("S", section_request "." "2024-01-01")]) =
  Returns
    [("S", "Found 1 matches in PDF1 and 0 matches in PDF2 for section S")] /\
  ~ (forall n r,
       In r (rows data) ->
       (exists out, matches reject_beyond data (JString n) = Returns out /\
                    In r (rows out)) <->
       plain_substring_match n (cell_at 1 r) = true).
Proof.
  cbv zeta. repeat split; try reflexivity.
  intros H.
  specialize (H "." [Some "Y"; Some "Z"] (or_introl eq_refl)).
  destruct H as [H _].
  assert (Hfalse : plain_substring_match "." (Some "Z") = true).
  { apply H. eexists. split; [reflexivity|]. now left. }
  discriminate Hfalse.
Qed.

(** * Further properties of the extractor *)

(** ** Column order *)

Lemma insert_by_perm {A} (key : A -> Z) (a : A) (l : list A) :
  Permutation (insert_by key a l) (a :: l).
Proof.
  induction l as [|b r IH]; simpl; [reflexivity|].
  destruct (key a <=? key b); [reflexivity|].
  rewrite IH. apply perm_swap.
Qed.

Lemma sort_by_perm {A} (key : A -> Z) (l : list A) :
  Permutation (sort_by key l) l.
Proof.
  induction l as [|a r IH]; simpl; [reflexivity|].
  now rewrite insert_by_perm, IH.
Qed.

Lemma insert_by_sorted {A} (key : A -> Z) (a : A) (l : list A) :
  StronglySorted (fun x y => key x <= key y) l ->
  StronglySorted (fun x y => key x <= key y) (insert_by key a l).
Proof.
  induction 1 as [|b r Hs IH Hall]; simpl.
  - constructor; constructor.
  - destruct (key a <=? key b) eqn:Hle.
    + apply Z.leb_le in Hle. constructor; [now constructor|].
      constructor; [assumption|].
      eapply Forall_impl; [|exact Hall]. simpl. intros; lia.
    + apply Z.leb_gt in Hle. constructor; [assumption|].
      apply Forall_forall. intros x Hx.
      apply (Permutation_in _ (insert_by_perm key a r)) in Hx.
      destruct Hx as [<-|Hx]; [lia|].
      rewrite Forall_forall in Hall. auto.
Qed.

Lemma sort_by_sorted {A} (key : A -> Z) (l : list A) :
  StronglySorted (fun x y => key x <= key y) (sort_by key l).
Proof.
  induction l as [|a r IH]; simpl; [constructor|].
  now apply insert_by_sorted.
Qed.

Lemma insert_by_stable {A} (key : A -> Z) (k : Z) (a : A) (l : list A) :
  filter (fun x => key x =? k) (insert_by key a l) =
  filter (fun x => key x =? k) (a :: l).
Proof.
  induction l as [|b r IH]; [reflexivity|].
  cbn [insert_by]. destruct (key a <=? key b) eqn:Hle; [reflexivity|].
  apply Z.leb_gt in Hle. cbn [filter] in *. rewrite IH.
  destruct (key a =? k) eqn:Ha; destruct (key b =? k) eqn:Hb;
    try reflexivity.
  apply Z.eqb_eq in Ha, Hb. lia.
Qed.

Lemma sort_by_stable {A} (key : A -> Z) (k : Z) (l : list A) :
  filter (fun x => key x =? k) (sort_by key l) =
  filter (fun x => key x =? k) l.
Proof.
  induction l as [|a r IH]; [reflexivity|].
  cbn [sort_by fold_right]. fold (sort_by key r).
  rewrite insert_by_stable. cbn [filter]. now rewrite IH.
Qed.

(** X1: the columns of a page are its header words from left to right: the
    header positions are the detected ones rearranged, their left edges never
    decrease, and headers with the same left edge keep the order in which
    their words come on the page. *)
Theorem X1_columns_left_to_right (words : Page) :
  Permutation (header_positions words) (detect_headers words) /\
  StronglySorted (fun a b => hp_x0 a <= hp_x0 b) (header_positions words) /\
  forall k,
    filter (fun h => hp_x0 h =? k) (header_positions words) =
    filter (fun h => hp_x0 h =? k) (detect_headers words).
Proof.
  unfold header_positions. split; [apply sort_by_perm|].
  split; [apply sort_by_sorted | intros k; apply sort_by_stable].
Qed.

(** ** The column of a word *)

Lemma match_column_spec (cols : list (Z * Z)) (x : Z) (k : nat) :
  match match_column cols x k with
  | Some i =>
      (k <= i)%nat /\
      (exists band, nth_error cols (i - k) = Some band /\
                    in_band x band = true) /\
      forall j band, (j < i - k)%nat -> nth_error cols j = Some band ->
                     in_band x band = false
  | None => forall band, In band cols -> in_band x band = false
  end.
Proof.
  revert k. induction cols as [|[a b] r IH]; intros k; simpl.
  - intros band [].
  - destruct ((a <=? x) && (x <=? b)) eqn:Hin.
    + split; [lia|]. rewrite Nat.sub_diag. split.
      * exists (a, b). now split.
      * intros j band Hj. lia.
    + specialize (IH (S k)).
      destruct (match_column r x (S k)) as [i|].
      * destruct IH as (Hk & [band [Hb Hx]] & Hbefore).
        split; [lia|]. replace (i - k)%nat with (S (i - S k)) by lia.
        split; [now exists band|].
        intros [|j] band' Hj; simpl.
        -- now intros [= <-].
        -- apply Hbefore. lia.
      * intros band [<-|Hb]; [exact Hin | now apply IH].
Qed.

(** X2: a word goes to the first column, from the left, whose band holds its
    left edge, and to no column when no band holds it. *)
Theorem X2_first_band_wins (cols : list (Z * Z)) (x : Z) :
  match match_column cols x 0 with
  | Some i =>
      (exists band, nth_error cols i = Some band /\ in_band x band = true) /\
      forall j band, (j < i)%nat -> nth_error cols j = Some band ->
                     in_band x band = false
  | None => forall band, In band cols -> in_band x band = false
  end.
Proof.
  pose proof (match_column_spec cols x 0) as H.
  destruct (match_column cols x 0) as [i|]; [|exact H].
  rewrite Nat.sub_0_r in H. tauto.
Qed.

(** ** The tables of a document *)

Lemma filter_map_swap {A B} (f : B -> bool) (g : A -> B) (l : list A) :
  filter f (map g l) = map g (filter (fun a => f (g a)) l).
Proof.
  induction l as [|a r IH]; simpl; [reflexivity|].
  destruct (f (g a)); simpl; now rewrite IH.
Qed.

Lemma filter_sorted (f : Z -> bool) (l : list Z) :
  StronglySorted Z.lt l -> StronglySorted Z.lt (filter f l).
Proof.
  induction 1 as [|y r Hs IH Hall]; simpl; [constructor|].
  destruct (f y); [|assumption]. constructor; [assumption|].
  apply Forall_forall. intros x Hx. apply filter_In in Hx as [Hx _].
  rewrite Forall_forall in Hall. auto.
Qed.

Lemma filter_twice {A} (f g : A -> bool) (l : list A) :
  filter f (filter g l) = filter (fun a => g a && f a) l.
Proof.
  induction l as [|a r IH]; simpl; [reflexivity|].
  destruct (g a); simpl; [destruct (f a)|]; now rewrite IH.
Qed.

(** The rows of a cleaned table are the candidate rows that pass one test,
    in their order. *)
Lemma clean_table_filter data names df :
  clean_table data names = Returns df ->
  exists keep, rows df = filter keep (map (map Some) data).
Proof.
  unfold clean_table, drop_blank_opr, str_column. cbn [columns rows
    drop_header_rows drop_total dropna_all filter_rows new_frame].
  destruct (in_list "OPR" names).
  - destruct (positions "OPR" names 0) as [|i [|j l]];
      cbn [bind]; try discriminate.
    intros [= <-]. cbn [rows].
    rewrite map_map, select_map, !filter_twice.
    eexists. reflexivity.
  - intros [= <-]. cbn [columns rows drop_header_rows drop_total dropna_all
      filter_rows new_frame].
    rewrite !filter_twice. eexists. reflexivity.
Qed.

(** X3: the rows of a page's table are candidate rows of anchors of the
    page, one row per anchor, in increasing order of the anchors: the table
    reads from the top of the page to its bottom. *)
Theorem X3_rows_top_to_bottom (words : Page) (df : DataFrame) :
  process_page words = Returns (Some df) ->
  exists anchors,
    rows df =
      map (fun y => map Some (build_row (header_positions words) words y))
        anchors /\
    StronglySorted Z.lt anchors /\
    incl anchors (row_positions words).
Proof.
  intros Hp. apply process_page_table in Hp.
  apply clean_table_filter in Hp as [keep Hrows].
  unfold table_data in Hrows.
  rewrite !filter_map_swap, map_map in Hrows.
  eexists. split; [exact Hrows|]. split.
  - apply filter_sorted, filter_sorted, sorted_row_positions.
  - intros y Hy. apply filter_In in Hy as [Hy _].
    now apply filter_In in Hy as [Hy _].
Qed.

Lemma X3_rows_top_to_bottom_witness :
  exists anchors,
    [[Some "ABCD"]; [Some "ABCDEF"]; [Some "CDEF"]] =
      map (fun y => map Some
             (build_row (header_positions Sample.close_lines)
                Sample.close_lines y)) anchors /\
    StronglySorted Z.lt anchors /\
    incl anchors (row_positions Sample.close_lines).
Proof.
  apply (X3_rows_top_to_bottom Sample.close_lines
           {| columns := ["OPR"];
              rows := [[Some "ABCD"]; [Some "ABCDEF"]; [Some "CDEF"]] |}).
  reflexivity.
Defined.

Lemma In_extract_tables (pdf : list Page) (ts : list DataFrame)
  (df : DataFrame) :
  extract_tables pdf = Returns ts -> In df ts ->
  exists page, In page pdf /\ process_page page = Returns (Some df).
Proof.
  revert ts. induction pdf as [|p r IH]; intros ts; simpl.
  - intros [= <-] [].
  - destruct (process_page p) as [t|e] eqn:Hp; cbn [bind]; [|discriminate].
    destruct (extract_tables r) as [tr|e]; cbn [bind]; [|discriminate].
    intros [= <-] Hin.
    assert (Htail : In df tr -> exists page,
              In page (p :: r) /\ process_page page = Returns (Some df)).
    { intros H. destruct (IH tr eq_refl H) as [page [Hpage Hres]].
      exists page. split; [now right | assumption]. }
    destruct t as [d|]; [|auto].
    destruct Hin as [->|Hin]; [|auto].
    exists p. split; [now left | assumption].
Qed.

Lemma process_pdf_returns (pdf : list Page) (ts : list DataFrame) :
  process_pdf pdf = Returns ts -> extract_tables pdf = Returns ts.
Proof.
  unfold process_pdf, guard500.
  destruct (extract_tables pdf); [trivial | discriminate].
Qed.

Lemma In_insert_by {A} (key : A -> Z) (a x : A) (l : list A) :
  In x (insert_by key a l) <-> x = a \/ In x l.
Proof.
  split; intros H.
  - apply (Permutation_in _ (insert_by_perm key a l)) in H.
    destruct H; auto.
  - apply (Permutation_in _ (Permutation_sym (insert_by_perm key a l))).
    destruct H; [left | right]; auto.
Qed.

Lemma In_detect_headers (words : list Word) (h : HeaderPos) :
  In h (detect_headers words) <->
  exists w, In w words /\ is_header_word w = true /\
            h = (text w, x0 w - 5, x1 w + 5).
Proof.
  induction words as [|w r IH]; simpl.
  - split; [tauto | intros [? [[] _]]].
  - destruct (is_header_word w) eqn:Hw; simpl; rewrite IH; split.
    + intros [<-|[v [Hv H]]]; [exists w; auto | exists v; tauto].
    + intros [v [[->|Hv] [Hh ->]]]; [now left | right; exists v; auto].
    + intros [v [Hv H]]. exists v. tauto.
    + intros [v [[->|Hv] [Hh ->]]]; [congruence | exists v; auto].
Qed.

Lemma In_header_positions (words : list Word) (h : HeaderPos) :
  In h (header_positions words) <-> In h (detect_headers words).
Proof.
  unfold header_positions. split; apply Permutation_in;
    [|apply Permutation_sym]; apply sort_by_perm.
Qed.

Lemma in_list_In (s : string) (l : list string) :
  in_list s l = true <-> In s l.
Proof.
  unfold in_list. rewrite existsb_exists. split.
  - intros [x [Hx He]]. apply String.eqb_eq in He. now subst.
  - intros H. exists s. split; [assumption | apply String.eqb_refl].
Qed.

(** X4: every table that the extractor returns has a column and a row; its
    column labels are target headers; and every row has a cell that holds a
    non-empty string. *)
Theorem X4_tables_are_populated (pdf : list Page) (ts : list DataFrame)
  (df : DataFrame) :
  process_pdf pdf = Returns ts ->
  In df ts ->
  frame_empty df = false /\
  (forall label, In label (columns df) -> In label TARGET_HEADERS) /\
  (forall r, In r (rows df) -> exists s, In (Some s) r /\ s <> "").
Proof.
  intros Hpdf Hdf. apply process_pdf_returns in Hpdf.
  destruct (In_extract_tables _ _ _ Hpdf Hdf) as [page [_ Hp]].
  split; [|split].
  - unfold process_page in Hp. destruct page as [|w ws]; [discriminate|].
    destruct (header_positions (w :: ws)) as [|h hs]; [discriminate|].
    destruct (table_data (h :: hs) (w :: ws)) as [|d ds]; [discriminate|].
    destruct (clean_table _ _) as [df'|e]; cbn [bind] in Hp; [|discriminate].
    destruct (frame_empty df') eqn:He; [discriminate|]. congruence.
  - apply process_page_table in Hp.
    apply clean_table_rows in Hp as [-> _].
    intros label Hl. unfold column_names in Hl.
    apply in_map_iff in Hl as [h [<- Hh]].
    apply In_header_positions, In_detect_headers in Hh
      as [w [_ [Hw ->]]].
    now apply in_list_In.
  - intros r Hr. apply process_page_table in Hp.
    apply clean_table_rows in Hp as [_ Hrows].
    destruct (Hrows r Hr) as [Hin _].
    apply in_map_iff in Hin as [row [<- Hrow]].
    apply In_table_data in Hrow as [_ Hany].
    unfold any_cell in Hany. apply existsb_exists in Hany as [s [Hs Hne]].
    exists s. split; [now apply in_map|].
    intros ->. discriminate.
Qed.

Lemma X4_tables_are_populated_witness :
  frame_empty
    {| columns := ["POL"; "OPR"]; rows := [[Some "Y"; Some "Z"]] |} = false.
Proof.
  apply (X4_tables_are_populated [Sample.no_header; Sample.two_columns]
           [{| columns := ["POL"; "OPR"]; rows := [[Some "Y"; Some "Z"]] |}]).
  - reflexivity.
  - now left.
Defined.

(** ** The cells of a table *)

Lemma trimmed_empty : trimmed "".
Proof. split; intros c; discriminate. Qed.

Lemma first_char_app (a b : string) :
  first_char (a ++ b) =
  match a with EmptyString => first_char b | String c _ => Some c end.
Proof. now destruct a. Qed.

Lemma last_char_app (a b : string) :
  last_char (a ++ b) =
  match b with EmptyString => last_char a | String _ _ => last_char b end.
Proof.
  induction a as [|c a IH]; [now destruct b|].
  destruct b as [|d b]; [now rewrite append_empty_r|].
  cbn [append last_char]. rewrite IH.
  destruct (a ++ String d b)%string eqn:Ha; [|reflexivity].
  destruct a; discriminate.
Qed.

Lemma trimmed_app (a b : string) :
  trimmed a -> trimmed b -> trimmed (a ++ b).
Proof.
  intros [Ha1 Ha2] [Hb1 Hb2]. split; intros c.
  - rewrite first_char_app. destruct a; [apply Hb1 | apply Ha1].
  - rewrite last_char_app. destruct b; [apply Ha2 | apply Hb2].
Qed.

Lemma lstrip_first (s : string) (c : ascii) :
  first_char (Str.lstrip s) = Some c -> Str.is_space c = false.
Proof.
  induction s as [|d r IH]; simpl; [discriminate|].
  destruct (Str.is_space d) eqn:Hd; [assumption|].
  simpl. now intros [= <-].
Qed.

Lemma rstrip_first (s : string) (c : ascii) :
  first_char (Str.rstrip s) = Some c -> first_char s = Some c.
Proof.
  destruct s as [|d r]; simpl; [discriminate|].
  now destruct (Str.is_space d && Str.is_empty (Str.rstrip r)).
Qed.

Lemma rstrip_last (s : string) (c : ascii) :
  last_char (Str.rstrip s) = Some c -> Str.is_space c = false.
Proof.
  induction s as [|d r IH]; simpl; [discriminate|].
  destruct (Str.rstrip r) as [|e r'] eqn:Hr.
  - destruct (Str.is_space d) eqn:Hd; simpl; [discriminate|].
    now intros [= <-].
  - rewrite andb_false_r. cbn [last_char]. exact IH.
Qed.

(** What [strip] returns has no white space at its ends. *)
Lemma trimmed_strip (s : string) : trimmed (Str.strip s).
Proof.
  unfold Str.strip. split; intros c H.
  - apply rstrip_first in H. now apply lstrip_first in H.
  - now apply rstrip_last in H.
Qed.

Lemma trimmed_join_pieces (ws : list Word) : trimmed (join_pieces ws).
Proof.
  induction ws as [|w r IH]; simpl; [apply trimmed_empty|].
  apply trimmed_app; [apply trimmed_strip | assumption].
Qed.

(** X5: every cell of every table that the extractor returns holds a string,
    never a missing value, and the string has no white space at its start
    nor at its end. *)
Theorem X5_cells_are_trimmed_strings (pdf : list Page)
  (ts : list DataFrame) (df : DataFrame) (r : list Cell) (c : Cell) :
  process_pdf pdf = Returns ts ->
  In df ts -> In r (rows df) -> In c r ->
  exists s, c = Some s /\ trimmed s.
Proof.
  intros Hpdf Hdf Hr Hc. apply process_pdf_returns in Hpdf.
  destruct (In_extract_tables _ _ _ Hpdf Hdf) as [page [_ Hp]].
  apply process_page_table in Hp.
  apply clean_table_rows in Hp as [_ Hrows].
  destruct (Hrows r Hr) as [Hin _].
  apply in_map_iff in Hin as [row [<- Hrow]].
  apply in_map_iff in Hc as [s [<- Hs]].
  exists s. split; [reflexivity|].
  apply In_table_data in Hrow as [[y [_ ->]] _].
  apply In_nth_error in Hs as [i Hi].
  assert (Hlt : (i < List.length (header_positions page))%nat).
  { rewrite <- (length_build_row _ page y). apply nth_error_Some.
    congruence. }
  rewrite build_row_cell in Hi by assumption.
  injection Hi as <-. apply trimmed_join_pieces.
Qed.

Lemma X5_cells_are_trimmed_strings_witness :
  exists s, Some "Z" = Some s /\ trimmed s.
Proof.
  apply (X5_cells_are_trimmed_strings [Sample.two_columns]
           [{| columns := ["POL"; "OPR"]; rows := [[Some "Y"; Some "Z"]] |}]
           {| columns := ["POL"; "OPR"]; rows := [[Some "Y"; Some "Z"]] |}
           [Some "Y"; Some "Z"]).
  - reflexivity.
  - now left.
  - now left.
  - simpl. tauto.
Defined.

(** ** A label detected twice *)

Lemma length_positions label names k :
  List.length (positions label names k) =
  List.length (filter (fun n => String.eqb n label) names).
Proof.
  revert k. induction names as [|n r IH]; intros k; simpl; [reflexivity|].
  destruct (String.eqb n label); simpl; now rewrite IH.
Qed.

Lemma perm_filter_length {A} (f : A -> bool) (l l' : list A) :
  Permutation l l' ->
  List.length (filter f l) = List.length (filter f l').
Proof.
  induction 1 as [|a l l' _ IH|a b l|l l' l'' _ IH1 _ IH2]; simpl.
  - reflexivity.
  - destruct (f a); simpl; now rewrite IH.
  - destruct (f a), (f b); reflexivity.
  - now rewrite IH1.
Qed.

Lemma opr_is_header (w : Word) :
  String.eqb (text w) "OPR" = true -> is_header_word w = true.
Proof.
  intros H. apply String.eqb_eq in H. unfold is_header_word.
  now rewrite H.
Qed.

Lemma length_opr_headers (words : list Word) :
  List.length
    (filter (fun h => String.eqb (hp_label h) "OPR") (detect_headers words)) =
  List.length (opr_words words).
Proof.
  unfold opr_words. induction words as [|w r IH]; simpl; [reflexivity|].
  destruct (String.eqb (text w) "OPR") eqn:Hw.
  - rewrite (opr_is_header _ Hw). simpl. unfold hp_label at 1. simpl.
    rewrite Hw. simpl. now rewrite IH.
  - destruct (is_header_word w); [|assumption].
    simpl. unfold hp_label at 1. simpl. now rewrite Hw.
Qed.

(** The label OPR heads as many columns as the page has words "OPR". *)
Lemma length_opr_columns (words : list Word) :
  List.length
    (positions "OPR" (column_names (header_positions words)) 0) =
  List.length (opr_words words).
Proof.
  rewrite length_positions. unfold column_names.
  rewrite filter_map_swap, length_map. unfold header_positions.
  rewrite (perm_filter_length _ _ _ (sort_by_perm hp_x0 _)).
  apply length_opr_headers.
Qed.

Lemma is_empty_app (a b : string) :
  Str.is_empty (a ++ b) = Str.is_empty a && Str.is_empty b.
Proof. now destruct a. Qed.

(** A header word whose right edge is not left of its left edge lies in its
    own band, so the row of its anchor is a candidate row. *)
Lemma header_word_gives_row (words : list Word) (w : Word) :
  In w words -> text w = "OPR" -> x0 w <= x1 w ->
  table_data (header_positions words) words <> [].
Proof.
  intros Hw Htext Hx.
  set (hs := header_positions words).
  assert (Hband : In (x0 w - 5, x1 w + 5) (column_positions hs)).
  { unfold column_positions. apply in_map_iff.
    exists (text w, x0 w - 5, x1 w + 5). split; [reflexivity|].
    apply In_header_positions, In_detect_headers. exists w.
    repeat split; [assumption|]. apply opr_is_header.
    rewrite Htext. reflexivity. }
  pose proof (match_column_spec (column_positions hs) (x0 w) 0) as Hspec.
  destruct (match_column (column_positions hs) (x0 w) 0) as [i|] eqn:Hcol.
  - assert (Hi : (i < List.length hs)%nat).
    { apply match_column_bound in Hcol. unfold column_positions in Hcol.
      rewrite length_map in Hcol. lia. }
    pose proof (build_row_cell hs words (top w) i Hi) as Hcell.
    assert (Hland : In w (filter (lands_in (column_positions hs) (top w) i)
                            words)).
    { apply filter_In. split; [assumption|]. unfold lands_in.
      rewrite Hcol, Nat.eqb_refl, Z.sub_diag. reflexivity. }
    destruct (in_split _ _ Hland) as [before [after Hsplit]].
    rewrite Hsplit, join_pieces_app in Hcell. cbn [join_pieces] in Hcell.
    assert (Hrow : In (build_row hs words (top w)) (table_data hs words)).
    { apply In_table_data. split.
      - exists (top w). split; [|reflexivity].
        apply In_row_positions. now exists w.
      - unfold any_cell. apply existsb_exists. eexists.
        split; [eapply nth_error_In; exact Hcell|].
        rewrite !is_empty_app. unfold piece. rewrite Htext.
        now rewrite andb_false_r. }
    intros Hnil. rewrite Hnil in Hrow. destruct Hrow.
  - specialize (Hspec _ Hband). unfold in_band in Hspec. simpl in Hspec.
    apply andb_false_iff in Hspec as [H|H];
      [apply Z.leb_gt in H | apply Z.leb_gt in H]; lia.
Qed.

Lemma repeated_opr_page_raises (page : Page) :
  (2 <= List.length (opr_words page))%nat ->
  (forall w, In w (opr_words page) -> x0 w <= x1 w) ->
  process_page page = Raises AttributeError.
Proof.
  intros Htwo Hwf.
  assert (Hw : exists w, In w page /\ text w = "OPR" /\ x0 w <= x1 w).
  { destruct (opr_words page) as [|w l] eqn:Hopr; [simpl in Htwo; lia|].
    assert (Hin : In w (opr_words page)) by (rewrite Hopr; now left).
    exists w. pose proof (Hwf w) as Hx.
    unfold opr_words in Hin. apply filter_In in Hin as [Hin Ht].
    apply String.eqb_eq in Ht. repeat split; auto. apply Hx. now left. }
  destruct Hw as (w & Hin & Htext & Hx).
  pose proof (header_word_gives_row page w Hin Htext Hx) as Hdata.
  assert (Hlen : (2 <= List.length (positions "OPR"
            (column_names (header_positions page)) 0))%nat)
    by (now rewrite length_opr_columns).
  unfold process_page. destruct page as [|w0 ws]; [destruct Hin|].
  destruct (header_positions (w0 :: ws)) as [|h hs] eqn:Hhs.
  { simpl in Hlen. lia. }
  destruct (table_data (h :: hs) (w0 :: ws)) as [|d ds]; [congruence|].
  unfold clean_table, drop_blank_opr, str_column. cbn [columns rows
    drop_header_rows drop_total dropna_all filter_rows new_frame].
  destruct (in_list "OPR" (column_names (h :: hs))) eqn:Hopr.
  - destruct (positions "OPR" (column_names (h :: hs)) 0) as [|i [|j l]];
      simpl in Hlen; try lia. reflexivity.
  - rewrite (positions_nil _ _ _ Hopr) in Hlen. simpl in Hlen. lia.
Qed.

Lemma positions_cons label names k :
  in_list label names = true -> positions label names k <> [].
Proof.
  unfold in_list. revert k.
  induction names as [|n r IH]; intros k; simpl; [discriminate|].
  rewrite String.eqb_sym.
  destruct (String.eqb n label); simpl; [discriminate | apply IH].
Qed.

Lemma process_page_exn (page : Page) (e : exn) :
  process_page page = Raises e -> e = AttributeError.
Proof.
  unfold process_page. destruct page as [|w ws]; [discriminate|].
  destruct (header_positions (w :: ws)) as [|h hs]; [discriminate|].
  destruct (table_data (h :: hs) (w :: ws)) as [|d ds]; [discriminate|].
  unfold clean_table, drop_blank_opr, str_column. cbn [columns rows
    drop_header_rows drop_total dropna_all filter_rows new_frame].
  destruct (in_list "OPR" _) eqn:Hopr.
  - pose proof (positions_cons _ _ 0%nat Hopr) as Hpos.
    destruct (positions "OPR" _ 0) as [|i [|j l]]; cbn [bind].
    + congruence.
    + destruct (frame_empty _); discriminate.
    + now intros [= <-].
  - cbn [bind]. destruct (frame_empty _); discriminate.
Qed.

Lemma extract_tables_raises (pdf : list Page) (page : Page) :
  In page pdf -> process_page page = Raises AttributeError ->
  extract_tables pdf = Raises AttributeError.
Proof.
  intros Hin Hp. induction pdf as [|p r IH]; [destruct Hin|]. simpl.
  destruct (process_page p) as [t|e] eqn:Hpp; cbn [bind].
  - destruct Hin as [->|Hin]; [congruence|]. now rewrite (IH Hin).
  - now rewrite (process_page_exn _ _ Hpp).
Qed.

Lemma process_pdfs_extraction_fails re_beyond (pdf1 pdf2 : list Page)
  (sections : json) :
  (exists e, process_pdf pdf1 = Raises e) \/
  (exists e, process_pdf pdf2 = Raises e) ->
  exists e, process_pdfs re_beyond pdf1 pdf2 sections =
            Raises (HTTPException 500 e).
Proof.
  intros H. unfold process_pdfs. apply guard500_raises.
  destruct H as [[e ->]|[e He]]; [now exists e|].
  destruct (process_pdf_cases pdf1) as [[t1 ->]|[e' ->]]; [|now exists e'].
  rewrite He. now exists e.
Qed.

(** X6: a page on which the label OPR is detected twice (each of the two
    words with its right edge not left of its left edge) aborts the
    extraction of its document with the status 500, whatever the other pages
    hold, and with it every request that uploads the document, as the first
    or as the second PDF. *)
Theorem X6_repeated_opr_aborts
  (re_beyond : string -> option (string -> bool))
  (pdf other : list Page) (page : Page) (sections : json) :
  In page pdf ->
  (2 <= List.length (opr_words page))%nat ->
  (forall w, In w (opr_words page) -> x0 w <= x1 w) ->
  (exists e, process_pdf pdf = Raises (HTTPException 500 e)) /\
  (exists e, process_pdfs re_beyond pdf other sections =
             Raises (HTTPException 500 e)) /\
  (exists e, process_pdfs re_beyond other pdf sections =
             Raises (HTTPException 500 e)).
Proof.
  intros Hin Htwo Hwf.
  assert (Hpdf : process_pdf pdf = Raises (HTTPException 500 AttributeError)).
  { unfold process_pdf.
    rewrite (extract_tables_raises pdf page Hin); [reflexivity|].
    now apply repeated_opr_page_raises. }
  split; [eauto|].
  split; apply process_pdfs_extraction_fails; [left | right]; eauto.
Qed.

Lemma X6_repeated_opr_aborts_witness :
  exists e,
    process_pdf [Sample.two_columns; page_with_two_opr] =
    Raises (HTTPException 500 e).
Proof.
  apply (X6_repeated_opr_aborts reject_beyond
           [Sample.two_columns; page_with_two_opr] [] page_with_two_opr
           JNull).
  - simpl. tauto.
  - simpl. lia.
  - intros w [<-|[<-|[]]]; simpl; lia.
Defined.

Lemma extract_tables_app (a b : list Page) :
  extract_tables (a ++ b) =
  (ta <- extract_tables a ;; tb <- extract_tables b ;;
   Returns (ta ++ tb)%list).
Proof.
  induction a as [|p r IH]; simpl.
  - destruct (extract_tables b); reflexivity.
  - destruct (process_page p) as [t|e]; cbn [bind]; [|reflexivity].
    rewrite IH. destruct (extract_tables r) as [tr|e]; cbn [bind];
      [|reflexivity].
    destruct (extract_tables b) as [tb|e]; cbn [bind]; [|reflexivity].
    now destruct t.
Qed.

Lemma length_extract_tables (pdf : list Page) (ts : list DataFrame) :
  extract_tables pdf = Returns ts -> (List.length ts <= List.length pdf)%nat.
Proof.
  revert ts. induction pdf as [|p r IH]; intros ts; simpl.
  - intros [= <-]. simpl. lia.
  - destruct (process_page p) as [t|e]; cbn [bind]; [|discriminate].
    destruct (extract_tables r) as [tr|e]; cbn [bind]; [|discriminate].
    specialize (IH tr eq_refl). intros [= <-]. destruct t; simpl; lia.
Qed.

(** X7: the pages of a document are processed one by one: the tables of a
    document made of the pages of two documents are the tables of the first
    followed by those of the second, and a document yields at most one table
    per page. *)
Theorem X7_tables_page_by_page (a b : list Page) (ta tb : list DataFrame) :
  process_pdf a = Returns ta ->
  process_pdf b = Returns tb ->
  process_pdf (a ++ b) = Returns (ta ++ tb)%list /\
  (List.length ta <= List.length a)%nat.
Proof.
  intros Ha Hb. apply process_pdf_returns in Ha, Hb. split.
  - unfold process_pdf. now rewrite extract_tables_app, Ha, Hb.
  - now apply length_extract_tables.
Qed.

Lemma X7_tables_page_by_page_witness :
  process_pdf ([Sample.no_header; Sample.two_columns]
               ++ [Sample.with_total])%list =
  Returns [{| columns := ["POL"; "OPR"]; rows := [[Some "Y"; Some "Z"]] |};
           {| columns := ["OPR"]; rows := [[Some "AB"]] |}].
Proof.
  apply (X7_tables_page_by_page [Sample.no_header; Sample.two_columns]
           [Sample.with_total]
           [{| columns := ["POL"; "OPR"]; rows := [[Some "Y"; Some "Z"]] |}]
           [{| columns := ["OPR"]; rows := [[Some "AB"]] |}]);
    reflexivity.
Defined.

(** ** The response *)

Lemma mapM_Forall2 {A B} (f : A -> outcome B) (P : A -> B -> Prop)
  (l : list A) (r : list B) :
  (forall a b, f a = Returns b -> P a b) ->
  mapM f l = Returns r -> Forall2 P l r.
Proof.
  intros HP. revert r. induction l as [|a l IH]; intros r; simpl.
  - intros [= <-]. constructor.
  - destruct (f a) as [b|e] eqn:Hb; cbn [bind]; [|discriminate].
    destruct (mapM f l) as [bs|e]; cbn [bind]; [|discriminate].
    intros [= <-]. constructor; auto.
Qed.

Lemma process_section_shape re_beyond t1 t2 entry res :
  process_section re_beyond t1 t2 entry = Returns res ->
  fst res = fst entry /\
  exists n1 n2, snd res = result_message n1 n2 (fst entry).
Proof.
  unfold process_section. destruct entry as [section data].
  destruct (getitem data "number"); cbn [bind]; [|discriminate].
  destruct (getitem data "date"); cbn [bind]; [|discriminate].
  destruct (combined t1); cbn [bind]; [|discriminate].
  destruct (combined t2); cbn [bind]; [|discriminate].
  destruct (matches _ _ _) as [m1|]; cbn [bind]; [|discriminate].
  destruct (matches _ _ _) as [m2|]; cbn [bind]; [|discriminate].
  intros [= <-]. simpl. eauto.
Qed.

(** X8: a request that is answered is answered in full: the payload was an
    object, and the response has one result per entry of the payload, in the
    order of the entries, under the name of the entry, each of the form
    "Found n1 matches in PDF1 and n2 matches in PDF2 for section name". *)
Theorem X8_one_result_per_section
  (re_beyond : string -> option (string -> bool))
  (pdf1 pdf2 : list Page) (sections : json)
  (results : list (string * string)) :
  process_pdfs re_beyond pdf1 pdf2 sections = Returns results ->
  exists entries,
    sections = JObject entries /\
    Forall2 (fun entry res =>
               fst res = fst entry /\
               exists n1 n2,
                 snd res =
                 "Found " ++ Str.of_nat n1 ++ " matches in PDF1 and "
                 ++ Str.of_nat n2 ++ " matches in PDF2 for section "
                 ++ fst entry)
      entries results.
Proof.
  unfold process_pdfs, guard500.
  destruct (process_pdf pdf1) as [t1|e]; cbn [bind]; [|discriminate].
  destruct (process_pdf pdf2) as [t2|e]; cbn [bind]; [|discriminate].
  destruct sections as [| | | | |entries]; cbn [items bind];
    try discriminate.
  destruct (mapM _ entries) as [rs|e] eqn:Hm; [|discriminate].
  intros [= <-]. exists entries. split; [reflexivity|].
  eapply mapM_Forall2; [|exact Hm].
  intros entry res. apply process_section_shape.
Qed.

Lemma X8_one_result_per_section_witness :
  exists entries,
    JObject [("A", section_request "Z" ""); ("B", section_request "." "")] =
      JObject entries /\
    Forall2 (fun entry res =>
               fst res = fst entry /\
               exists n1 n2,
                 snd res =
                 "Found " ++ Str.of_nat n1 ++ " matches in PDF1 and "
                 ++ Str.of_nat n2 ++ " matches in PDF2 for section "
                 ++ fst entry)
      entries
      [("A", "Found 1 matches in PDF1 and 0 matches in PDF2 for section A");
       ("B", "Found 1 matches in PDF1 and 0 matches in PDF2 for section B")].
Proof.
  apply (X8_one_result_per_section reject_beyond [Sample.two_columns] []).
  reflexivity.
Defined.

(** X9: the payload has to be an object whose values are objects: a payload
    of another kind, or an entry whose value is not an object, fails the
    whole request with the status 500. *)
Theorem X9_payload_must_be_objects
  (re_beyond : string -> option (string -> bool))
  (pdf1 pdf2 : list Page) (sections : json) :
  (forall entries, sections <> JObject entries) \/
  (exists entries section data,
     sections = JObject entries /\ In (section, data) entries /\
     forall fields, data <> JObject fields) ->
  exists e, process_pdfs re_beyond pdf1 pdf2 sections =
            Raises (HTTPException 500 e).
Proof.
  intros H. unfold process_pdfs. apply guard500_raises.
  destruct (process_pdf_cases pdf1) as [[t1 ->]|[e ->]]; [|now exists e].
  destruct (process_pdf_cases pdf2) as [[t2 ->]|[e ->]]; [|now exists e].
  cbn [bind].
  destruct H as [H|(entries & section & data & -> & Hin & Hdata)].
  - destruct sections; cbn [items bind]; eauto. now destruct (H entries).
  - cbn [items bind]. apply (mapM_raises _ _ _ Hin).
    unfold process_section, getitem.
    destruct data; cbn [bind]; eauto. now destruct (Hdata entries0).
Qed.

Lemma X9_payload_must_be_objects_witness :
  exists e,
    process_pdfs reject_beyond [] []
      (JObject [("A", section_request "Z" ""); ("B", JString "Z")]) =
    Raises (HTTPException 500 e).
Proof.
  apply (X9_payload_must_be_objects reject_beyond [] []).
  right. exists [("A", section_request "Z" ""); ("B", JString "Z")].
  exists "B", (JString "Z"). split; [reflexivity|]. split.
  - simpl. tauto.
  - intros fields. discriminate.
Defined.

(** ** The combined dataset *)

Lemma frame_empty_false (df : DataFrame) :
  frame_empty df = false <-> columns df <> [] /\ rows df <> [].
Proof.
  unfold frame_empty. destruct (columns df), (rows df); split; intros H;
    try discriminate H; try reflexivity; try (split; discriminate);
    destruct H; congruence.
Qed.

Lemma extracted_tables_not_empty (pdf : list Page) (ts : list DataFrame)
  (df : DataFrame) :
  process_pdf pdf = Returns ts -> In df ts -> frame_empty df = false.
Proof.
  intros Hpdf Hdf. apply process_pdf_returns in Hpdf.
  destruct (In_extract_tables _ _ _ Hpdf Hdf) as [page [_ Hp]].
  unfold process_page in Hp. destruct page as [|w ws]; [discriminate|].
  destruct (header_positions (w :: ws)) as [|h hs]; [discriminate|].
  destruct (table_data (h :: hs) (w :: ws)) as [|d ds]; [discriminate|].
  destruct (clean_table _ _) as [df'|e]; cbn [bind] in Hp; [|discriminate].
  destruct (frame_empty df') eqn:He; [discriminate|]. congruence.
Qed.

Lemma In_union_labels (x : string) (l acc : list string) :
  In x (union_labels acc l) <-> In x acc \/ In x l.
Proof.
  revert acc. induction l as [|a r IH]; intros acc; simpl; [tauto|].
  destruct (in_list a acc) eqn:Ha; rewrite IH.
  - apply in_list_In in Ha. split; [tauto|].
    intros [H|[<-|H]]; auto.
  - rewrite in_app_iff. simpl. tauto.
Qed.

Lemma In_fold_union (x : string) (lists : list (list string))
  (acc : list string) :
  In x (fold_left union_labels lists acc) <->
  In x acc \/ exists l, In l lists /\ In x l.
Proof.
  revert acc. induction lists as [|l r IH]; intros acc; simpl.
  - split; [tauto | intros [H|[l [[] _]]]; assumption].
  - rewrite IH, In_union_labels. split.
    + intros [[H|H]|[l' [Hl Hx]]]; eauto.
    + intros [H|[l' [[<-|Hl] Hx]]]; eauto.
Qed.

(** The labels of the combined dataset are labels of the tables. *)
Lemma concat_columns (tables : list DataFrame) (data : DataFrame)
  (x : string) :
  concat tables = Returns data -> In x (columns data) ->
  exists t, In t tables /\ In x (columns t).
Proof.
  unfold concat. destruct tables as [|t ts]; [discriminate|].
  destruct (forallb _ ts).
  - intros [= <-] Hx. exists t. split; [now left | assumption].
  - destruct (existsb _ (t :: ts)); [discriminate|].
    intros [= <-] Hx. cbn [columns] in Hx.
    apply In_fold_union in Hx.
    destruct Hx as [Hx|[l [Hl Hx]]].
    + apply In_union_labels in Hx as [Hx|Hx]; [exact (False_ind _ Hx)|].
      exists t. split; [now left | assumption].
    + apply in_map_iff in Hl as [u [<- Hu]]. exists u.
      split; [now right | assumption].
Qed.

(** Tables with rows and columns combine into a dataset with rows and
    columns. *)
Lemma concat_not_empty (tables : list DataFrame) (data : DataFrame) :
  concat tables = Returns data ->
  (forall t, In t tables -> frame_empty t = false) ->
  frame_empty data = false.
Proof.
  unfold concat. destruct tables as [|t ts]; [discriminate|].
  intros Hc Hne.
  destruct (proj1 (frame_empty_false t) (Hne t (or_introl eq_refl)))
    as [Hcols Hrows].
  destruct (forallb _ ts).
  - injection Hc as <-. apply frame_empty_false. cbn [columns rows flat_map].
    split; [assumption|]. destruct (rows t); [congruence | discriminate].
  - destruct (existsb _ (t :: ts)); [discriminate|].
    injection Hc as <-. apply frame_empty_false.
    cbn [columns rows flat_map map]. split.
    + destruct (columns t) as [|x l] eqn:Hx; [congruence|].
      intros Hnil.
      assert (Hin : In x (fold_left union_labels
                            (map columns ts) (union_labels [] (x :: l)))).
      { apply In_fold_union. left. apply In_union_labels. right. now left. }
      rewrite Hnil in Hin. destruct Hin.
    + destruct (rows t); [congruence | discriminate].
Qed.

Lemma matches_without_opr re_beyond (data : DataFrame) (number : json) :
  frame_empty data = false -> ~ In "OPR" (columns data) ->
  matches re_beyond data number = Raises (KeyError "OPR").
Proof.
  intros Hne Hno. unfold matches, opr_mask, str_column. rewrite Hne.
  rewrite positions_nil; [reflexivity|].
  destruct (in_list "OPR" (columns data)) eqn:H; [|reflexivity].
  now apply in_list_In in H.
Qed.

Lemma combined_without_opr (ts : list DataFrame) (data : DataFrame) :
  ts <> [] ->
  (forall t, In t ts -> frame_empty t = false) ->
  (forall t, In t ts -> ~ In "OPR" (columns t)) ->
  combined ts = Returns data ->
  frame_empty data = false /\ ~ In "OPR" (columns data).
Proof.
  intros Hts Hne Hno Hc. unfold combined in Hc.
  destruct ts as [|t r]; [congruence|]. split.
  - now apply (concat_not_empty _ _ Hc).
  - intros Hin. destruct (concat_columns _ _ _ Hc Hin) as [u [Hu Hx]].
    now apply (Hno u).
Qed.

Lemma process_section_without_opr re_beyond (t1 t2 : list DataFrame)
  (entry : string * json) :
  (forall t, In t t1 -> frame_empty t = false) ->
  (forall t, In t t2 -> frame_empty t = false) ->
  (t1 <> [] /\ forall t, In t t1 -> ~ In "OPR" (columns t)) \/
  (t2 <> [] /\ forall t, In t t2 -> ~ In "OPR" (columns t)) ->
  exists e, process_section re_beyond t1 t2 entry = Raises e.
Proof.
  intros Hne1 Hne2 Hno. unfold process_section.
  destruct entry as [section data].
  destruct (getitem data "number") as [number|e]; cbn [bind]; eauto.
  destruct (getitem data "date") as [date|e]; cbn [bind]; eauto.
  destruct (combined t1) as [d1|e] eqn:Hc1; cbn [bind]; eauto.
  destruct (combined t2) as [d2|e] eqn:Hc2; cbn [bind]; eauto.
  destruct (matches re_beyond d1 number) as [m1|e] eqn:Hm1; cbn [bind]; eauto.
  destruct Hno as [[Hts Hno]|[Hts Hno]].
  - destruct (combined_without_opr _ _ Hts Hne1 Hno Hc1) as [Hd Hc].
    rewrite (matches_without_opr _ _ _ Hd Hc) in Hm1. discriminate.
  - destruct (combined_without_opr _ _ Hts Hne2 Hno Hc2) as [Hd Hc].
    rewrite (matches_without_opr _ _ _ Hd Hc). cbn [bind]. eauto.
Qed.

(** X10: when a document yields tables and none of them has an OPR column,
    every request with at least one section fails with the status 500,
    whether the document is uploaded as the first or as the second PDF. *)
Theorem X10_missing_opr_column_is_fatal
  (re_beyond : string -> option (string -> bool))
  (pdf other : list Page) (ts : list DataFrame)
  (entries : list (string * json)) :
  process_pdf pdf = Returns ts ->
  ts <> [] ->
  (forall t, In t ts -> ~ In "OPR" (columns t)) ->
  entries <> [] ->
  (exists e, process_pdfs re_beyond pdf other (JObject entries) =
             Raises (HTTPException 500 e)) /\
  (exists e, process_pdfs re_beyond other pdf (JObject entries) =
             Raises (HTTPException 500 e)).
Proof.
  intros Hpdf Hts Hno Hentries.
  destruct entries as [|entry rest]; [congruence|].
  pose proof (fun t => extracted_tables_not_empty _ _ t Hpdf) as Hne.
  split; unfold process_pdfs; apply guard500_raises.
  - rewrite Hpdf. cbn [bind].
    destruct (process_pdf other) as [to|e] eqn:Ho; cbn [bind]; eauto.
    apply (mapM_raises _ _ entry); [now left|].
    apply process_section_without_opr; auto.
    intros t. apply (extracted_tables_not_empty _ _ t Ho).
  - destruct (process_pdf other) as [to|e] eqn:Ho; cbn [bind]; eauto.
    rewrite Hpdf. cbn [bind items].
    apply (mapM_raises _ _ entry); [now left|].
    apply process_section_without_opr; auto.
    intros t. apply (extracted_tables_not_empty _ _ t Ho).
Qed.

Lemma X10_missing_opr_column_is_fatal_witness :
  exists e,
    process_pdfs reject_beyond [page_without_opr] []
      (JObject [("A", section_request "X" "")]) =
    Raises (HTTPException 500 e).
Proof.
  apply (X10_missing_opr_column_is_fatal reject_beyond [page_without_opr] []
           [{| columns := ["POL"]; rows := [[Some "X"]] |}]).
  - reflexivity.
  - discriminate.
  - intros t [<-|[]] [H|[]]. discriminate H.
  - discriminate.
Defined.

Lemma matches_bad_number re_beyond (data : DataFrame) (number : json) :
  frame_empty data = false ->
  (forall s, number <> JString s) ->
  exists e, matches re_beyond data number = Raises e.
Proof.
  intros Hne Hnum. unfold matches, opr_mask. rewrite Hne. cbn [negb].
  destruct (str_column data "OPR") as [col|e]; cbn [bind]; eauto.
  destruct number; cbn [bind]; eauto. now destruct (Hnum s).
Qed.

Lemma combined_not_empty (ts : list DataFrame) (data : DataFrame) :
  ts <> [] ->
  (forall t, In t ts -> frame_empty t = false) ->
  combined ts = Returns data -> frame_empty data = false.
Proof.
  intros Hts Hne Hc. unfold combined in Hc.
  destruct ts as [|t r]; [congruence|].
  now apply (concat_not_empty _ _ Hc).
Qed.

Lemma process_section_bad_number re_beyond (t1 t2 : list DataFrame)
  (section : string) (fields : list (string * json)) (v : json) :
  (forall t, In t t1 -> frame_empty t = false) ->
  (forall t, In t t2 -> frame_empty t = false) ->
  t1 <> [] \/ t2 <> [] ->
  assoc "number" fields = Some v ->
  (forall s, v <> JString s) ->
  exists e, process_section re_beyond t1 t2 (section, JObject fields) =
            Raises e.
Proof.
  intros Hne1 Hne2 Hts Hv Hnum. unfold process_section, getitem.
  rewrite Hv. cbn [bind].
  destruct (assoc "date" fields) as [date|]; cbn [bind]; eauto.
  destruct (combined t1) as [d1|e] eqn:Hc1; cbn [bind]; eauto.
  destruct (combined t2) as [d2|e] eqn:Hc2; cbn [bind]; eauto.
  destruct (matches re_beyond d1 v) as [m1|e] eqn:Hm1; cbn [bind]; eauto.
  destruct Hts as [Hts|Hts].
  - destruct (matches_bad_number re_beyond d1 v) as [e He]; auto.
    + now apply (combined_not_empty t1).
    + congruence.
  - destruct (matches_bad_number re_beyond d2 v) as [e He]; auto.
    + now apply (combined_not_empty t2).
    + rewrite He. cbn [bind]. eauto.
Qed.

(** X11: when a document yields a table, a section whose number is not a
    string (a JSON number, say) fails the whole request with the status 500,
    whether the document is uploaded as the first or as the second PDF. *)
Theorem X11_number_must_be_a_string
  (re_beyond : string -> option (string -> bool))
  (pdf other : list Page) (ts : list DataFrame)
  (entries : list (string * json)) (section : string)
  (fields : list (string * json)) (v : json) :
  process_pdf pdf = Returns ts ->
  ts <> [] ->
  In (section, JObject fields) entries ->
  assoc "number" fields = Some v ->
  (forall s, v <> JString s) ->
  (exists e, process_pdfs re_beyond pdf other (JObject entries) =
             Raises (HTTPException 500 e)) /\
  (exists e, process_pdfs re_beyond other pdf (JObject entries) =
             Raises (HTTPException 500 e)).
Proof.
  intros Hpdf Hts Hin Hv Hnum.
  pose proof (fun t => extracted_tables_not_empty _ _ t Hpdf) as Hne.
  split; unfold process_pdfs; apply guard500_raises.
  - rewrite Hpdf. cbn [bind].
    destruct (process_pdf other) as [to|e] eqn:Ho; cbn [bind]; eauto.
    apply (mapM_raises _ _ _ Hin).
    apply (process_section_bad_number _ _ _ _ _ v); auto.
    intros t. apply (extracted_tables_not_empty _ _ t Ho).
  - destruct (process_pdf other) as [to|e] eqn:Ho; cbn [bind]; eauto.
    rewrite Hpdf. cbn [bind items].
    apply (mapM_raises _ _ _ Hin).
    apply (process_section_bad_number _ _ _ _ _ v); auto.
    intros t. apply (extracted_tables_not_empty _ _ t Ho).
Qed.

Lemma X11_number_must_be_a_string_witness :
  exists e,
    process_pdfs reject_beyond [Sample.two_columns] []
      (JObject [("A", JObject [("number", JNumber "10");
                               ("date", JString "")])]) =
    Raises (HTTPException 500 e).
Proof.
  apply (X11_number_must_be_a_string reject_beyond [Sample.two_columns] []
           [{| columns := ["POL"; "OPR"]; rows := [[Some "Y"; Some "Z"]] |}]
           _ "A" [("number", JNumber "10"); ("date", JString "")]
           (JNumber "10")).
  - reflexivity.
  - discriminate.
  - now left.
  - reflexivity.
  - intros s. discriminate.
Defined.

Lemma positions_nth label names k i :
  In i (positions label names k) -> nth_error names (i - k) = Some label.
Proof.
  revert k. induction names as [|n r IH]; intros k; simpl; [tauto|].
  destruct (String.eqb n label) eqn:Hn.
  - intros [<-|H].
    + rewrite Nat.sub_diag. apply String.eqb_eq in Hn. now subst.
    + pose proof (positions_lb _ _ _ _ H). apply IH in H.
      replace (i - k)%nat with (S (i - S k)) by lia. exact H.
  - intros H. pose proof (positions_lb _ _ _ _ H). apply IH in H.
    replace (i - k)%nat with (S (i - S k)) by lia. exact H.
Qed.

Lemma map_flat_map_swap {A B C} (f : B -> C) (g : A -> list B)
  (l : list A) :
  map f (flat_map g l) = flat_map (fun a => map f (g a)) l.
Proof.
  induction l as [|a r IH]; simpl; [reflexivity|].
  now rewrite map_app, IH.
Qed.

Lemma flat_map_ext_In {A B} (f g : A -> list B) (l : list A) :
  (forall a, In a l -> f a = g a) -> flat_map f l = flat_map g l.
Proof.
  induction l as [|a r IH]; intros H; simpl; [reflexivity|].
  rewrite (H a) by now left. rewrite IH; [reflexivity|].
  intros b Hb. apply H. now right.
Qed.

Lemma same_labels_eq (a b : list string) : same_labels a b = true -> a = b.
Proof.
  unfold same_labels. now destruct (list_eq_dec string_dec a b).
Qed.

Lemma length_filter_flat_map {A B} (f : B -> bool) (g : A -> list B)
  (l : list A) :
  List.length (filter f (flat_map g l)) =
  list_sum (map (fun a => List.length (filter f (g a))) l).
Proof.
  induction l as [|a r IH]; simpl; [reflexivity|].
  now rewrite filter_app, length_app, IH.
Qed.

(** The OPR column of the combined dataset is the OPR cells of the rows of
    the tables, table after table. *)
Lemma concat_opr_column (tables : list DataFrame) (data : DataFrame)
  (i : nat) :
  concat tables = Returns data ->
  positions "OPR" (columns data) 0 = [i] ->
  map (cell_at i) (rows data) =
  flat_map (fun t => map (opr_cell t) (rows t)) tables.
Proof.
  unfold concat. destruct tables as [|t ts]; [discriminate|].
  destruct (forallb _ ts) eqn:Hsame.
  - intros [= <-] Hpos.
    change (positions "OPR" (columns t) 0 = [i]) in Hpos.
    change (map (cell_at i) (flat_map rows (t :: ts)) =
            flat_map (fun u => map (opr_cell u) (rows u)) (t :: ts)).
    rewrite map_flat_map_swap. apply flat_map_ext_In.
    intros u Hu. apply map_ext. intros r. unfold opr_cell.
    assert (Hcols : columns t = columns u).
    { destruct Hu as [<-|Hu]; [reflexivity|].
      rewrite forallb_forall in Hsame. now apply same_labels_eq, Hsame. }
    now rewrite <- Hcols, Hpos.
  - destruct (existsb _ (t :: ts)); [discriminate|].
    intros [= <-] Hpos.
    set (cols := fold_left union_labels (map columns (t :: ts)) []).
    change (positions "OPR" cols 0 = [i]) in Hpos.
    change (map (cell_at i)
              (flat_map (fun u => map (reindex_row (columns u) cols) (rows u))
                 (t :: ts)) =
            flat_map (fun u => map (opr_cell u) (rows u)) (t :: ts)).
    rewrite map_flat_map_swap. apply flat_map_ext_In.
    intros u Hu. rewrite map_map. apply map_ext. intros r.
    unfold opr_cell, reindex_row, cell_at at 1.
    rewrite nth_error_map.
    assert (Hi : In i (positions "OPR" cols 0)) by (rewrite Hpos; now left).
    apply positions_nth in Hi. rewrite Nat.sub_0_r in Hi.
    now rewrite Hi.
Qed.

(** X12: the matches of a document are counted table by table: in the
    combined dataset the rows whose OPR cell passes a test are as many as in
    the tables taken one after the other, a row of a table without an OPR
    column counting as a row with a missing OPR value. *)
Theorem X12_matches_add_up (tables : list DataFrame) (data : DataFrame)
  (i : nat) (found : Cell -> bool) :
  concat tables = Returns data ->
  positions "OPR" (columns data) 0 = [i] ->
  map (cell_at i) (rows data) =
    flat_map (fun t => map (opr_cell t) (rows t)) tables /\
  List.length (filter (fun r => found (cell_at i r)) (rows data)) =
    list_sum (map (fun t =>
      List.length (filter (fun r => found (opr_cell t r)) (rows t))) tables).
Proof.
  intros Hc Hpos. pose proof (concat_opr_column _ _ _ Hc Hpos) as Hcol.
  split; [exact Hcol|].
  rewrite <- (length_map (cell_at i)), <- filter_map_swap, Hcol.
  rewrite length_filter_flat_map. f_equal. apply map_ext. intros t.
  now rewrite filter_map_swap, length_map.
Qed.

Lemma X12_matches_add_up_witness :
  let t1 := {| columns := ["POL"; "OPR"]; rows := [[Some "Y"; Some "Z"]] |} in
  let t2 := {| columns := ["POL"]; rows := [[Some "X"]] |} in
  let t3 := {| columns := ["OPR"]; rows := [[Some "AB"]] |} in
  map (cell_at 1) [[Some "Y"; Some "Z"]; [Some "X"; None]; [None; Some "AB"]]
  = flat_map (fun t => map (opr_cell t) (rows t)) [t1; t2; t3].
Proof.
  cbv zeta.
  apply (X12_matches_add_up
    [{| columns := ["POL"; "OPR"]; rows := [[Some "Y"; Some "Z"]] |};
     {| columns := ["POL"]; rows := [[Some "X"]] |};
     {| columns := ["OPR"]; rows := [[Some "AB"]] |}]
    {| columns := ["POL"; "OPR"];
       rows := [[Some "Y"; Some "Z"]; [Some "X"; None]; [None; Some "AB"]] |}
    1%nat (fun _ => true)); reflexivity.
Defined.

(** ** Words that land nowhere *)

Lemma add_at_empty (i : nat) (row : list string) : add_at i "" row = row.
Proof.
  revert i. induction row as [|c r IH]; intros [|j]; simpl;
    try reflexivity.
  - now rewrite append_empty_r.
  - now rewrite IH.
Qed.

Lemma add_word_ignored cols y row w :
  match_column cols (x0 w) 0 = None \/ 5 <= Z.abs (top w - y) \/
  Str.all_space (text w) = true ->
  add_word cols y row w = row.
Proof.
  intros H. unfold add_word.
  destruct (Z.abs (top w - y) <? 5) eqn:Hy; [|reflexivity].
  destruct (match_column cols (x0 w) 0) as [i|] eqn:Hc; [|reflexivity].
  destruct (i <? List.length row)%nat; [|reflexivity].
  destruct H as [H|[H|H]].
  - discriminate H.
  - apply Z.ltb_lt in Hy. lia.
  - unfold piece.
    replace (Str.strip (" " ++ text w)) with "";
      [apply add_at_empty|].
    symmetry. apply strip_empty. exact H.
Qed.

Lemma detect_headers_app (a b : list Word) :
  detect_headers (a ++ b) = (detect_headers a ++ detect_headers b)%list.
Proof.
  induction a as [|w r IH]; simpl; [reflexivity|].
  destruct (is_header_word w); simpl; now rewrite IH.
Qed.

Lemma header_positions_without (before after : list Word) (w : Word) :
  is_header_word w = false ->
  header_positions (before ++ w :: after) = header_positions (before ++ after).
Proof.
  intros Hw. unfold header_positions. rewrite !detect_headers_app.
  simpl. now rewrite Hw.
Qed.

(** X13: a word that is not a header label and that falls into no column,
    its left edge in no band of the page or its text white space only,
    changes no cell. With or without the word the page has the same columns
    and, at every anchor, the same candidate row; the one effect of the word
    is that its top is an anchor of the page. *)
Theorem X13_stray_word_only_adds_its_anchor (before after : list Word)
  (w : Word) :
  let page := (before ++ w :: after)%list in
  let rest := (before ++ after)%list in
  is_header_word w = false ->
  match_column (column_positions (header_positions page)) (x0 w) 0 = None \/
  Str.all_space (text w) = true ->
  header_positions page = header_positions rest /\
  (forall y, build_row (header_positions page) page y =
             build_row (header_positions rest) rest y) /\
  (forall y, In y (row_positions page) <->
             y = top w \/ In y (row_positions rest)).
Proof.
  intros page rest Hw Hstray.
  pose proof (header_positions_without before after w Hw) as Hhs.
  fold page rest in Hhs. split; [exact Hhs|]. split.
  - intros y. rewrite <- Hhs. unfold build_row, page, rest.
    rewrite !fold_left_app. cbn [fold_left].
    rewrite add_word_ignored; [reflexivity|]. tauto.
  - intros y. unfold page, rest. rewrite !In_row_positions. split.
    + intros [v [Hv Ht]]. apply in_app_iff in Hv as [Hv|[<-|Hv]].
      * right. exists v. rewrite in_app_iff. tauto.
      * now left.
      * right. exists v. rewrite in_app_iff. tauto.
    + intros [->|[v [Hv Ht]]].
      * exists w. rewrite in_app_iff. simpl. tauto.
      * exists v. rewrite in_app_iff in *. simpl. tauto.
Qed.

Lemma X13_stray_word_only_adds_its_anchor_witness :
  let page := page_with_stray_word in
  let rest := [mkWord "OPR" 10 30 0; mkWord "AB" 10 20 20] in
  header_positions page = header_positions rest /\
  (forall y, build_row (header_positions page) page y =
             build_row (header_positions rest) rest y) /\
  (forall y, In y (row_positions page) <->
             y = 23 \/ In y (row_positions rest)).
Proof.
  apply (X13_stray_word_only_adds_its_anchor
           [mkWord "OPR" 10 30 0; mkWord "AB" 10 20 20] []
           (mkWord "stray" 200 230 23)).
  - reflexivity.
  - left. reflexivity.
Defined.

(** ** Requests on regular documents *)

Lemma has_dup_NoDup (l : list string) : has_dup l = false <-> NoDup l.
Proof.
  induction l as [|a r IH]; simpl.
  - split; [constructor | reflexivity].
  - rewrite orb_false_iff, IH, NoDup_cons_iff. split.
    + intros [Ha Hr]. split; [|assumption].
      intros Hin. apply in_list_In in Hin. congruence.
    + intros [Ha Hr]. split; [|assumption].
      destruct (in_list a r) eqn:H; [|reflexivity].
      now apply in_list_In in H.
Qed.

Lemma NoDup_snoc (a : string) (l : list string) :
  NoDup l -> ~ In a l -> NoDup (l ++ [a]).
Proof.
  induction 1 as [|b r Hb Hr IH]; intros Ha; simpl.
  - constructor; [tauto | constructor].
  - constructor.
    + rewrite in_app_iff. simpl. intros [H|[H|[]]]; [tauto|].
      apply Ha. now left.
    + apply IH. intros H. apply Ha. now right.
Qed.

Lemma union_labels_NoDup (l acc : list string) :
  NoDup acc -> NoDup (union_labels acc l).
Proof.
  revert acc. induction l as [|a r IH]; intros acc Hacc; simpl;
    [assumption|].
  destruct (in_list a acc) eqn:Ha; apply IH; [assumption|].
  apply NoDup_snoc; [assumption|].
  intros Hin. apply in_list_In in Hin. congruence.
Qed.

Lemma fold_union_NoDup (lists : list (list string)) (acc : list string) :
  NoDup acc -> NoDup (fold_left union_labels lists acc).
Proof.
  revert acc. induction lists as [|l r IH]; intros acc Hacc; simpl;
    [assumption|].
  now apply IH, union_labels_NoDup.
Qed.

Lemma NoDup_positions (x : string) (l : list string) (k : nat) :
  NoDup l -> In x l -> exists i, positions x l k = [i].
Proof.
  intros Hl. revert k. induction Hl as [|a r Ha Hr IH]; intros k Hin;
    [destruct Hin|]. simpl.
  destruct (String.eqb a x) eqn:Hax.
  - apply String.eqb_eq in Hax. subst a. exists k.
    rewrite positions_nil; [reflexivity|].
    destruct (in_list x r) eqn:H; [|reflexivity].
    now apply in_list_In in H.
  - destruct Hin as [->|Hin]; [now rewrite String.eqb_refl in Hax|].
    now apply IH.
Qed.

(** Tables without repeated labels combine, into a dataset without repeated
    labels that has every label of every table. *)
Lemma concat_regular (t : DataFrame) (ts : list DataFrame) :
  (forall u, In u (t :: ts) -> has_dup (columns u) = false) ->
  exists data,
    concat (t :: ts) = Returns data /\
    NoDup (columns data) /\
    forall x u, In u (t :: ts) -> In x (columns u) -> In x (columns data).
Proof.
  intros Hnd. unfold concat.
  destruct (forallb _ ts) eqn:Hsame.
  - eexists. split; [reflexivity|]. cbn [columns]. split.
    + apply has_dup_NoDup, Hnd. now left.
    + intros x u [<-|Hu] Hx; [assumption|].
      rewrite forallb_forall in Hsame.
      now rewrite (same_labels_eq _ _ (Hsame u Hu)).
  - destruct (existsb _ (t :: ts)) eqn:Hdup.
    + apply existsb_exists in Hdup as [u [Hu Hd]].
      rewrite (Hnd u Hu) in Hd. discriminate.
    + eexists. split; [reflexivity|]. cbn [columns]. split.
      * apply fold_union_NoDup. constructor.
      * intros x u Hu Hx. apply In_fold_union. right.
        exists (columns u). split; [now apply in_map | assumption].
Qed.

Lemma matches_plain re_beyond (data : DataFrame) (i : nat) (n : string) :
  frame_empty data = false ->
  positions "OPR" (columns data) 0 = [i] ->
  Re.no_special n = true ->
  matches re_beyond data (JString n) =
  Returns {| columns := columns data;
             rows := filter (fun r => plain_substring_match n (cell_at i r))
                       (rows data) |}.
Proof.
  intros Hne Hpos Hn. unfold matches, opr_mask, str_column.
  rewrite Hne, Hpos. cbn [negb bind].
  rewrite (re_compile_no_special _ _ Hn). cbn [bind].
  rewrite map_map, select_map. do 2 f_equal.
  apply filter_ext_in_rows. intros r. unfold cell_contains.
  destruct (cell_at i r); simpl; [apply search_literals | reflexivity].
Qed.

(** The matches of a regular document for a number without special
    characters. *)
Lemma regular_document_matches re_beyond (ts : list DataFrame)
  (n : string) :
  regular_tables ts ->
  (forall t, In t ts -> frame_empty t = false) ->
  Re.no_special n = true ->
  exists data m,
    combined ts = Returns data /\
    matches re_beyond data (JString n) = Returns m /\
    List.length (rows m) = document_matches n ts.
Proof.
  intros [Hnd Hopr] Hne Hn. destruct ts as [|t ts].
  - exists empty_frame, empty_frame. repeat split.
  - destruct Hopr as [Hnil|[u [Hu Hx]]]; [discriminate|].
    destruct (concat_regular t ts Hnd) as (data & Hc & Hcols & Hall).
    pose proof (concat_not_empty _ _ Hc Hne) as Hdata.
    destruct (NoDup_positions "OPR" _ 0 Hcols (Hall _ _ Hu Hx)) as [i Hi].
    exists data. eexists. split; [exact Hc|]. split.
    + apply (matches_plain _ _ i); assumption.
    + cbn [rows].
      rewrite <- (length_map (cell_at i)).
      rewrite <- (filter_map_swap (plain_substring_match n)).
      rewrite (concat_opr_column _ _ _ Hc Hi), length_filter_flat_map.
      unfold document_matches. f_equal. apply map_ext. intros v.
      unfold table_matches. now rewrite filter_map_swap, length_map.
Qed.

(** X14: a request on regular documents is answered. When no table of
    either document repeats a label and each document has an OPR column in
    some table (or no table at all), and every entry has a date and a number
    that is a string without special characters, the response gives, for
    every entry, the number of rows of the tables of each document whose OPR
    cell contains the number as it is written. *)
Theorem X14_regular_request_is_answered
  (re_beyond : string -> option (string -> bool))
  (pdf1 pdf2 : list Page) (t1 t2 : list DataFrame)
  (entries : list (string * json)) :
  process_pdf pdf1 = Returns t1 ->
  process_pdf pdf2 = Returns t2 ->
  regular_tables t1 ->
  regular_tables t2 ->
  (forall entry, In entry entries ->
     exists fields n date,
       snd entry = JObject fields /\
       assoc "number" fields = Some (JString n) /\
       Re.no_special n = true /\
       assoc "date" fields = Some date) ->
  process_pdfs re_beyond pdf1 pdf2 (JObject entries) =
  Returns (map (fun entry =>
    (fst entry,
     result_message (document_matches (entry_number entry) t1)
       (document_matches (entry_number entry) t2) (fst entry)))
    entries).
Proof.
  intros Hp1 Hp2 Hr1 Hr2 Hentries. unfold process_pdfs.
  rewrite Hp1, Hp2. cbn [bind items guard500].
  rewrite (mapM_returns _ (fun entry =>
    (fst entry,
     result_message (document_matches (entry_number entry) t1)
       (document_matches (entry_number entry) t2) (fst entry))));
    [reflexivity|].
  intros [section data] Hin.
  destruct (Hentries _ Hin) as (fields & n & date & Hd & Hn & Hs & Hdate).
  simpl in Hd. subst data.
  unfold process_section, getitem, entry_number. cbn [fst snd].
  rewrite Hn, Hdate. cbn [bind].
  destruct (regular_document_matches re_beyond t1 n Hr1
              (fun t => extracted_tables_not_empty _ _ t Hp1) Hs)
    as (d1 & m1 & Hc1 & Hm1 & Hl1).
  destruct (regular_document_matches re_beyond t2 n Hr2
              (fun t => extracted_tables_not_empty _ _ t Hp2) Hs)
    as (d2 & m2 & Hc2 & Hm2 & Hl2).
  rewrite Hc1. cbn [bind]. rewrite Hc2. cbn [bind].
  rewrite Hm1. cbn [bind]. rewrite Hm2. cbn [bind].
  now rewrite Hl1, Hl2.
Qed.

Lemma X14_regular_request_is_answered_witness :
  process_pdfs reject_beyond
    [Sample.two_columns; Sample.close_lines] [Sample.with_total]
    (JObject [("A", section_request "AB" "2024-01-01");
              ("B", section_request "Z" "")]) =
  Returns
    [("A", "Found 2 matches in PDF1 and 1 matches in PDF2 for section A");
     ("B", "Found 1 matches in PDF1 and 0 matches in PDF2 for section B")].
Proof.
  apply (X14_regular_request_is_answered reject_beyond
           [Sample.two_columns; Sample.close_lines] [Sample.with_total]
           [{| columns := ["POL"; "OPR"]; rows := [[Some "Y"; Some "Z"]] |};
            {| columns := ["OPR"];
               rows := [[Some "ABCD"]; [Some "ABCDEF"]; [Some "CDEF"]] |}]
           [{| columns := ["OPR"]; rows := [[Some "AB"]] |}]).
  - reflexivity.
  - reflexivity.
  - split.
    + intros t [<-|[<-|[]]]; reflexivity.
    + right. eexists. split; [now left | simpl; tauto].
  - split.
    + intros t [<-|[]]. reflexivity.
    + right. eexists. split; [now left | simpl; tauto].
  - intros entry [<-|[<-|[]]]; do 3 eexists;
      (split; [reflexivity|]); (split; [reflexivity|]); split; reflexivity.
Defined.
